(** * Battery degradation engine: fade model, calibration, trend, confidence

    A shallow embedding of [src/utils/degradationCalculator.js], of the
    service built on it ([src/services/battery.service.js]: the analysis
    entry point, the status labels, the recommendations and the health
    summary), of the request schema and of the error handler
    ([src/middleware/errorHandlers.js]).

    Numbers.  A JavaScript number is read as a real number: the arithmetic
    of the source is the arithmetic of [R], and the rounding error,
    overflow and signed zeros of IEEE doubles are not followed.  Two
    consequences are kept in view throughout:
    - a division by a zero [nominalCapacity] (an infinity in JavaScript) and
      a temperature of exactly absolute zero are outside the reading, and
      the statements that depend on such a quotient assume it away;
    - [NaN] does arise from numeric input, in one place: the calibration
      reads [nominalCapacity] without a default, and [x / undefined] is
      [NaN].  That value is kept, as [NaN] of type [number].

    Absent fields.  A payload field that is [undefined] (or [null], for
    [currentCapacity]) is [None]. *)

From Stdlib Require Import Reals Lra Lia List String ZArith Bool.
From Stdlib Require Import Sorting.Sorted.
Import ListNotations.

Open Scope R_scope.

(** ** JavaScript primitives used by the source *)

(** A number that may be [NaN]. *)
Inductive number : Type :=
| Num (r : R)
| NaN.

(** Truthiness of an optional numeric field: [undefined], [null] and [0]
    are falsy. *)
Definition truthy (v : option R) : bool :=
  match v with
  | Some x => if Req_dec_T x 0 then false else true
  | None => false
  end.

(** [v < c] for a field that may be [undefined]: the comparison with
    [undefined] is false. *)
Definition js_lt (v : option R) (c : R) : bool :=
  match v with
  | Some x => if Rlt_dec x c then true else false
  | None => false
  end.

(** Destructuring default [{ f = d }], and [f || d] on a numeric field
    with [d = 0]. *)
Definition dflt (d : R) (v : option R) : R :=
  match v with
  | Some x => x
  | None => d
  end.

(** [Math.floor]. *)
Definition Math_floor (x : R) : R := IZR (Int_part x).

(** [Math.round]: the nearest integer, ties towards plus infinity. *)
Definition Math_round (x : R) : R := Math_floor (x + / 2).

(** [Math.pow x y] for [0 <= x] and [0 < y], its only use here:
    [Math.pow 0 y] is [0]. *)
Definition Math_pow (x y : R) : R :=
  if Req_dec_T x 0 then 0 else Rpower x y.

(** [+x.toFixed(2)]: the nearest multiple of 1/100, ties away from zero. *)
Definition toFixed2 (x : R) : R :=
  if Rlt_dec x 0
  then - (Math_floor (- x * 100 + / 2) / 100)
  else Math_floor (x * 100 + / 2) / 100.

(** ** Data *)

Record Payload : Type := {
  chargeCycles : option R;
  avgTemperature : option R;
  nominalCapacity : option R;
  currentCapacity : option R;
  dodPct : option R;
  cRate : option R;
  calendarAgeMonths : option R;
  calendarAgeYears : option R
}.

Record Components : Type := {
  cycleFadePct : R;
  calendarFadePct : R
}.

Record FadeResult : Type := {
  healthPct : R;
  soh : R;
  eolPct : R;
  estimatedRUIMonths : R;
  modelHealthPct : R;
  components : Components
}.

Module Point.
Record t : Type := {
  cycle : R;
  healthPct : number;
  capacity : number
}.
End Point.

Inductive Level : Type := high | medium | low.

Record Confidence : Type := {
  level : Level;
  description : string;
  accuracy : string
}.

(** A thrown [Error] with its message. *)
Inductive jsError : Type :=
| Error (message : string).

(** How a call ends. *)
Inductive outcome (A : Type) : Type :=
| Returned (a : A)
| Thrown (e : jsError).
Arguments Returned {A} a.
Arguments Thrown {A} e.

(** ** [computeDegradation] *)

(** [const R = 8.314] of the source (the name [R] is the type of reals
    here). *)
Definition R_gas : R := 8.314.

Definition arrhenius (Tk Ea : R) : R := exp (- Ea / (R_gas * Tk)).

Definition alpha : R := 0.6.
Definition Ea : R := 25000.
Definition beta : R := 0.7.

Definition years (payload : Payload) : R :=
  match calendarAgeYears payload with
  | Some y => Rmax y 0
  | None => Rmax (dflt 0 (calendarAgeMonths payload) / 12) 0
  end.

Definition k_c_base (calibrationFactor : R) : R := 0.015 * calibrationFactor.
Definition k_t_base (calibrationFactor : R) : R := 0.01 * calibrationFactor.

Definition cRateAccel (payload : Payload) : R :=
  let cRate := dflt 0.8 (cRate payload) in
  if Rlt_dec 1 cRate then 1 + (cRate - 1) * 0.5 else 1.

Definition DoD_factor (payload : Payload) : R :=
  Math_pow (Rmax (dflt 80 (dodPct payload)) 0 / 100) alpha.

Definition cycleFadeFraction (payload : Payload) (calibrationFactor : R) : R :=
  k_c_base calibrationFactor * DoD_factor payload
  * sqrt (Rmax (dflt 0 (chargeCycles payload)) 0) * cRateAccel payload.

Definition calendarFadeFraction (payload : Payload) (calibrationFactor : R) : R :=
  let Tk := dflt 25 (avgTemperature payload) + 273.15 in
  if Rlt_dec 0 (years payload)
  then k_t_base calibrationFactor * arrhenius Tk Ea * Math_pow (years payload) beta
  else 0.

Definition totalFadePct (payload : Payload) (calibrationFactor : R) : R :=
  (cycleFadeFraction payload calibrationFactor
   + calendarFadeFraction payload calibrationFactor) * 100.

Definition computeDegradation (payload : Payload) (calibrationFactor : R)
  : FadeResult :=
  let nominalCapacity := dflt 100 (nominalCapacity payload) in
  let modelHealthPct := Rmax 0 (100 - totalFadePct payload calibrationFactor) in
  let observedHealthPct :=
    if truthy (currentCapacity payload)
    then Rmax 0 (Rmin 100
           (dflt 0 (currentCapacity payload) / nominalCapacity * 100))
    else modelHealthPct in
  let soh := observedHealthPct in
  let eolPct := 70 in
  let yearsElapsed := Rmax (years payload) 0.1 in
  let monthsElapsed := Rmax 1 (yearsElapsed * 12) in
  let currentFadePct := 100 - soh in
  let monthlyFadeRate := Rmax (currentFadePct / monthsElapsed) 0.05 in
  let remainingFadeNeeded := soh - eolPct in
  let monthsToEol := Rmax 0 (remainingFadeNeeded / monthlyFadeRate) in
  {| healthPct := observedHealthPct;
     soh := soh;
     eolPct := eolPct;
     estimatedRUIMonths := Math_round monthsToEol;
     modelHealthPct := modelHealthPct;
     components :=
       {| cycleFadePct := toFixed2 (cycleFadeFraction payload calibrationFactor * 100);
          calendarFadePct := toFixed2 (calendarFadeFraction payload calibrationFactor * 100) |}
  |}.

(** The call as its caller sees it.  [computeDegradation] has no [throw]
    and applies only arithmetic to the fields of the payload, so the call
    always completes. *)
Definition evaluateFade (payload : Payload) (calibrationFactor : R)
  : outcome FadeResult :=
  Returned (computeDegradation payload calibrationFactor).

(** ** [calculateCalibrationFactor] *)

(** An arithmetic operation, [Math.max] or [Math.min] applied to [NaN] is
    [NaN]. *)
Definition number_map (f : R -> R) (x : number) : number :=
  match x with
  | Num r => Num (f r)
  | NaN => NaN
  end.

Definition calculateCalibrationFactor (payload : Payload) : number :=
  if (negb (truthy (currentCapacity payload))
      || js_lt (chargeCycles payload) 50)%bool
  then Num 1
  else
    let modelResult := computeDegradation payload 1 in
    let actualHealthPct :=
      match nominalCapacity payload with
      | Some nominalCapacity =>
          Num (dflt 0 (currentCapacity payload) / nominalCapacity * 100)
      | None => NaN
      end in
    let modelHealthPct := modelHealthPct modelResult in
    let actualFadePct := number_map (fun a => 100 - a) actualHealthPct in
    let modelFadePct := 100 - modelHealthPct in
    if Rlt_dec modelFadePct 0.1 then Num 1
    else number_map (fun a => Rmax 0.1 (Rmin 3 (a / modelFadePct))) actualFadePct.

(** ** [buildTrend] *)

Definition totalCycles (payload : Payload) : R :=
  Rmax (dflt 0 (chargeCycles payload)) 0.

(** [x || d] on a number: [d] when [x] is [0]. *)
Definition or_else (x d : R) : R := if Req_dec_T x 0 then d else x.

Definition step (payload : Payload) : R :=
  Rmax 25 (or_else (Math_floor (totalCycles payload / 20)) 25).

(** The calendar age the trend sweeps: [calendarAgeYears] when it is a
    number, else [(calendarAgeMonths || 0) / 12]. *)
Definition calendarAge (payload : Payload) : R :=
  match calendarAgeYears payload with
  | Some y => y
  | None => dflt 0 (calendarAgeMonths payload) / 12
  end.

(** The object handed to [computeDegradation] inside the loop. *)
Definition loopSim (payload : Payload) (i : R) : Payload :=
  let yearsProgress :=
    calendarAge payload
    * (i / Rmax (or_else (totalCycles payload) 1) 1) in
  {| chargeCycles := Some i;
     avgTemperature := Some (dflt 25 (avgTemperature payload));
     nominalCapacity := Some (dflt 100 (nominalCapacity payload));
     currentCapacity := None;
     dodPct := Some (dflt 80 (dodPct payload));
     cRate := Some (dflt 0.8 (cRate payload));
     calendarAgeMonths := None;
     calendarAgeYears := Some yearsProgress |}.

(** The object handed to [computeDegradation] after the loop:
    [{...payload, currentCapacity: null, chargeCycles: totalCycles,
    calendarAgeYears: yearsAtEnd}]. *)
Definition endSim (payload : Payload) : Payload :=
  let yearsAtEnd := calendarAge payload in
  {| chargeCycles := Some (totalCycles payload);
     avgTemperature := avgTemperature payload;
     nominalCapacity := nominalCapacity payload;
     currentCapacity := None;
     dodPct := dodPct payload;
     cRate := cRate payload;
     calendarAgeMonths := calendarAgeMonths payload;
     calendarAgeYears := Some yearsAtEnd |}.

(** The point pushed for a simulated payload.  With a [NaN] calibration
    factor the cycle fade is [NaN], and with it the total fade, the health
    (the simulated payload carries no measurement) and the capacity. *)
Definition mkPoint (payload sim : Payload) (calibrationFactor : number)
    (cycle : R) : Point.t :=
  let nominalCapacity := dflt 100 (nominalCapacity payload) in
  let simHealthPct cf := healthPct (computeDegradation sim cf) in
  {| Point.cycle := cycle;
     Point.healthPct :=
       number_map (fun cf => toFixed2 (simHealthPct cf)) calibrationFactor;
     Point.capacity :=
       number_map (fun cf => toFixed2 (simHealthPct cf / 100 * nominalCapacity))
         calibrationFactor |}.

(** [for (let i = 0; i <= totalCycles; i += step)], run for at most
    [fuel] tests of the loop condition; [None] when the fuel runs out. *)
Fixpoint trendLoop (fuel : nat) (payload : Payload) (calibrationFactor : number)
    (i : R) (points : list Point.t) : option (list Point.t) :=
  match fuel with
  | O => None
  | S fuel' =>
      if Rle_dec i (totalCycles payload)
      then trendLoop fuel' payload calibrationFactor (i + step payload)
             (points ++ [mkPoint payload (loopSim payload i) calibrationFactor i])
      else Some points
  end.

(** Reading [.cycle] of [points[points.length - 1]] throws on an empty
    array. *)
Definition buildTrend (fuel : nat) (payload : Payload)
  : option (outcome (list Point.t)) :=
  let calibrationFactor := calculateCalibrationFactor payload in
  match trendLoop fuel payload calibrationFactor 0 [] with
  | None => None
  | Some points =>
      match rev points with
      | [] => Some (Thrown (Error "Cannot read properties of undefined (reading 'cycle')"))
      | lastPoint :: _ =>
          if Rlt_dec (Point.cycle lastPoint) (totalCycles payload)
          then Some (Returned
                 (points ++ [mkPoint payload (endSim payload) calibrationFactor
                               (totalCycles payload)]))
          else Some (Returned points)
      end
  end.

(** ** The sequence [buildTrend] returns, in closed form *)

(** The point the loop pushes at index [i]. *)
Definition loopPoint (payload : Payload) (calibrationFactor : number) (i : R)
  : Point.t :=
  mkPoint payload (loopSim payload i) calibrationFactor i.

(** The point pushed after the loop. *)
Definition endPoint (payload : Payload) (calibrationFactor : number) : Point.t :=
  mkPoint payload (endSim payload) calibrationFactor (totalCycles payload).

(** The [j]-th value of the loop variable. *)
Definition sample (payload : Payload) (j : nat) : R := INR j * step payload.

(** The sequence returned when the loop body ran [S m] times: the sampled
    points, and the end point when the last sample falls short. *)
Definition trendOf (payload : Payload) (calibrationFactor : number) (m : nat)
  : list Point.t :=
  map (fun j => loopPoint payload calibrationFactor (sample payload j))
    (seq 0 (S m))
  ++ (if Rlt_dec (sample payload m) (totalCycles payload)
      then [endPoint payload calibrationFactor] else []).

(** ** Shapes of a trend *)

(** Strictly ascending in [cycle]. *)
Definition ascending (points : list Point.t) : Prop :=
  StronglySorted (fun a b => Point.cycle a < Point.cycle b) points.

(** Every earlier value is at least every later one. *)
Definition nonIncreasing (values : list R) : Prop :=
  StronglySorted Rge values.

(** ** [getModelConfidence] *)

(** Comparisons with a possibly-[NaN] number: false on [NaN]. *)
Definition num_ge (x : number) (c : R) : bool :=
  match x with
  | Num r => if Rge_dec r c then true else false
  | NaN => false
  end.

Definition num_le (x : number) (c : R) : bool :=
  match x with
  | Num r => if Rle_dec r c then true else false
  | NaN => false
  end.

Definition getModelConfidence (payload : Payload) : Confidence :=
  if (negb (truthy (currentCapacity payload))
      || js_lt (chargeCycles payload) 50)%bool
  then {| level := low;
          description := "Insufficient cycle data for accurate prediction";
          accuracy := "±6 months" |}
  else
    let calibrationFactor := calculateCalibrationFactor payload in
    if (num_ge calibrationFactor 0.8 && num_le calibrationFactor 1.2)%bool
    then {| level := high;
            description := "Model closely matches measured performance";
            accuracy := "±2 months" |}
    else if (num_ge calibrationFactor 0.5 && num_le calibrationFactor 2.0)%bool
    then {| level := medium;
            description := "Model adjusted based on actual measurements";
            accuracy := "±4 months" |}
    else {| level := low;
            description := "Significant deviation between model and measurements";
            accuracy := "±6 months" |}.

(** ** [BatteryService.analyzeBatteryHealth] *)

(** The three results of the engine that the service assembles; the status
    label, the recommendations and the metadata are left out. *)
Record Analysis : Type := {
  degradationResult : FadeResult;
  trend : list Point.t;
  confidence : Confidence
}.

(** [v <= c] for a field that may be [undefined]. *)
Definition js_le (v : option R) (c : R) : bool :=
  match v with
  | Some x => if Rle_dec x c then true else false
  | None => false
  end.

(** The [catch] clause: [throw new Error(`Battery analysis failed: ${error.message}`)]. *)
Definition rethrow (e : jsError) : jsError :=
  match e with
  | Error message => Error ("Battery analysis failed: " ++ message)
  end.

Definition analyzeBatteryHealth (fuel : nat) (input : Payload)
  : option (outcome Analysis) :=
  if (negb (truthy (nominalCapacity input)) || js_le (nominalCapacity input) 0)%bool
  then Some (Thrown (rethrow (Error "nominalCapacity must be a positive number")))
  else
    match evaluateFade input 1 with
    | Thrown e => Some (Thrown (rethrow e))
    | Returned degradationResult =>
        match buildTrend fuel input with
        | None => None
        | Some (Thrown e) => Some (Thrown (rethrow e))
        | Some (Returned trend) =>
            let confidence := getModelConfidence input in
            Some (Returned {| degradationResult := degradationResult;
                              trend := trend;
                              confidence := confidence |})
        end
    end.

(** ** [BatteryService.determineBatteryStatus] *)

Module Status.
Record t : Type := {
  status : string;
  description : string;
  color : string
}.
End Status.

Definition determineBatteryStatus (soh : R) (currentCapacity : option R)
  : Status.t :=
  let dataSource : string :=
    (if truthy currentCapacity then "measured" else "estimated")%string in
  if Rge_dec soh 90 then
    {| Status.status := "Excellent";
       Status.description :=
         ("Battery health is excellent (" ++ dataSource ++ ")")%string;
       Status.color := "green" |}
  else if Rge_dec soh 80 then
    {| Status.status := "Good";
       Status.description :=
         ("Battery health is good (" ++ dataSource ++ ")")%string;
       Status.color := "lightgreen" |}
  else if Rge_dec soh 70 then
    {| Status.status := "Fair";
       Status.description :=
         ("Battery health is fair - monitor closely (" ++ dataSource ++ ")")%string;
       Status.color := "yellow" |}
  else if Rge_dec soh 60 then
    {| Status.status := "Poor";
       Status.description :=
         ("Battery health is poor - consider replacement (" ++ dataSource ++ ")")%string;
       Status.color := "orange" |}
  else
    {| Status.status := "Critical";
       Status.description :=
         ("Battery health is critical - replacement needed (" ++ dataSource ++ ")")%string;
       Status.color := "red" |}.

(** The status line of [analyzeBatteryHealth]:
    [this.determineBatteryStatus(degradationResult.soh, input.currentCapacity)]. *)
Definition analysisStatus (input : Payload) : Status.t :=
  determineBatteryStatus (soh (computeDegradation input 1)) (currentCapacity input).

(** ** [BatteryService.generateRecommendations] *)

(** A template literal, kept as its parts: the text, and the fields
    substituted into it. *)
Inductive part : Type :=
| Text (s : string)
| Value (v : option R).

Module Recommendation.
Record t : Type := {
  category : string;
  priority : string;
  message : list part;
  impact : string
}.
End Recommendation.

(** [v > c] for a field that may be [undefined]. *)
Definition js_gt (v : option R) (c : R) : bool :=
  match v with
  | Some x => if Rgt_dec x c then true else false
  | None => false
  end.

Definition temperatureHigh (avgTemperature : option R) : Recommendation.t :=
  {| Recommendation.category := "Temperature Management";
     Recommendation.priority := "High";
     Recommendation.message :=
       [Text "Operating temperature of "; Value avgTemperature;
        Text "°C is high. Consider improving cooling to extend battery life."];
     Recommendation.impact :=
       "High temperature significantly accelerates degradation" |}.

Definition temperatureElevated (avgTemperature : option R) : Recommendation.t :=
  {| Recommendation.category := "Temperature Management";
     Recommendation.priority := "Medium";
     Recommendation.message :=
       [Text "Operating temperature of "; Value avgTemperature;
        Text "°C is elevated. Monitor thermal management."];
     Recommendation.impact := "Moderate temperature acceleration detected" |}.

Definition deepDischarge (dodPct : option R) : Recommendation.t :=
  {| Recommendation.category := "Usage Pattern";
     Recommendation.priority := "Medium";
     Recommendation.message :=
       [Text "Depth of discharge ("; Value dodPct;
        Text "%) is high. Consider reducing to 80-85% for longer life."];
     Recommendation.impact := "Deep discharge cycles increase degradation rate" |}.

Definition fastCharging (cRate : option R) : Recommendation.t :=
  {| Recommendation.category := "Charging Rate";
     Recommendation.priority := "Medium";
     Recommendation.message :=
       [Text "Charge rate of "; Value cRate;
        Text "C is high. Consider slower charging when time permits."];
     Recommendation.impact := "High charge rates can accelerate capacity loss" |}.

Definition healthDeclining : Recommendation.t :=
  {| Recommendation.category := "Maintenance";
     Recommendation.priority := "High";
     Recommendation.message :=
       [Text "Battery health is declining. Plan for replacement within 6-12 months."];
     Recommendation.impact := "Performance and reliability may be compromised" |}.

Definition manyCycles : Recommendation.t :=
  {| Recommendation.category := "Lifecycle Management";
     Recommendation.priority := "Low";
     Recommendation.message :=
       [Text "Battery has accumulated significant cycles. Monitor performance trends closely."];
     Recommendation.impact := "High cycle count batteries may degrade faster" |}.

Definition withinOptimal : Recommendation.t :=
  {| Recommendation.category := "Maintenance";
     Recommendation.priority := "Low";
     Recommendation.message :=
       [Text "Battery is operating within optimal parameters. Continue current usage patterns."];
     Recommendation.impact := "Current conditions support good battery longevity" |}.

(** [if (test) recommendations.push(item)]. *)
Definition pushIf (test : bool) (item : Recommendation.t)
    (recommendations : list Recommendation.t) : list Recommendation.t :=
  if test then recommendations ++ [item] else recommendations.

Definition generateRecommendations (input : Payload)
    (degradationResult : FadeResult) : list Recommendation.t :=
  let soh := soh degradationResult in
  let recommendations := [] in
  let recommendations :=
    if js_gt (avgTemperature input) 35
    then recommendations ++ [temperatureHigh (avgTemperature input)]
    else if js_gt (avgTemperature input) 30
    then recommendations ++ [temperatureElevated (avgTemperature input)]
    else recommendations in
  let recommendations :=
    pushIf (js_gt (dodPct input) 90) (deepDischarge (dodPct input))
      recommendations in
  let recommendations :=
    pushIf (js_gt (cRate input) 1.5) (fastCharging (cRate input))
      recommendations in
  let recommendations :=
    pushIf (if Rlt_dec soh 75 then true else false) healthDeclining
      recommendations in
  let recommendations :=
    pushIf (js_gt (chargeCycles input) 1000) manyCycles recommendations in
  match recommendations with
  | [] => [withinOptimal]
  | _ => recommendations
  end.

(** ** [BatteryService.getHealthSummary] *)

(** [v || d] on an optional numeric field. *)
Definition field_or (v : option R) (d : R) : R :=
  if truthy v then dflt d v else d.

(** [Math.max(12, Math.floor(input.chargeCycles / 20))]: [NaN] when
    [chargeCycles] is [undefined]. *)
Definition estimatedCalendarAgeMonths (input : Payload) : number :=
  match chargeCycles input with
  | Some k => Num (Rmax 12 (Math_floor (k / 20)))
  | None => NaN
  end.

(** [input.calendarAgeMonths || Math.max(...)], as a payload field.  A
    [NaN] here is falsy, and the field is read only as
    [calendarAgeMonths || 0]: it is stored as an absent field, which reads
    the same. *)
Definition enhancedCalendarAgeMonths (input : Payload) : option R :=
  if truthy (calendarAgeMonths input) then calendarAgeMonths input
  else match estimatedCalendarAgeMonths input with
       | Num m => Some m
       | NaN => None
       end.

Definition enhancedInput (input : Payload) : Payload :=
  {| chargeCycles := chargeCycles input;
     avgTemperature := Some (field_or (avgTemperature input) 25);
     nominalCapacity := nominalCapacity input;
     currentCapacity := currentCapacity input;
     dodPct := Some (field_or (dodPct input) 80);
     cRate := cRate input;
     calendarAgeMonths := enhancedCalendarAgeMonths input;
     calendarAgeYears := calendarAgeYears input |}.

Module Summary.
Record Assumptions : Type := {
  estimatedCalendarAge : option number;
  defaultTemperature : option R;
  defaultDoD : option R
}.

Record t : Type := {
  healthPercentage : R;
  status : string;
  estimatedMonthsRemaining : R;
  confidence : Level;
  dataSource : string;
  assumptions : Assumptions
}.
End Summary.

Definition getHealthSummary (input : Payload) : Summary.t :=
  let enhancedInput := enhancedInput input in
  let degradationResult := computeDegradation enhancedInput 1 in
  let confidence := getModelConfidence enhancedInput in
  let status :=
    determineBatteryStatus (soh degradationResult) (currentCapacity input) in
  {| Summary.healthPercentage := healthPct degradationResult;
     Summary.status := Status.status status;
     Summary.estimatedMonthsRemaining := estimatedRUIMonths degradationResult;
     Summary.confidence := level confidence;
     Summary.dataSource :=
       (if truthy (currentCapacity input) then "measured" else "estimated")%string;
     Summary.assumptions :=
       {| Summary.estimatedCalendarAge :=
            if truthy (calendarAgeMonths input) then None
            else Some (estimatedCalendarAgeMonths input);
          Summary.defaultTemperature :=
            if truthy (avgTemperature input) then None else Some 25;
          Summary.defaultDoD :=
            if truthy (dodPct input) then None else Some 80 |}
  |}.

(** ** The request schema ([batteryAnalysisSchema]) *)

(** A request body: the numeric fields, and the unit. *)
Module Body.
Record t : Type := {
  fields : Payload;
  unit : option string
}.
End Body.

(** [z.number().min(lo).max(hi)] on a number. *)
Definition within (lo hi x : R) : bool :=
  if Rle_dec lo x then (if Rle_dec x hi then true else false) else false.

(** The three shapes of a numeric field of the schema.  The result is
    [None] when the field raises an issue, else the parsed field.
    - [z.number().min(lo).max(hi)]: required. *)
Definition required (lo hi : R) (v : option R) : option (option R) :=
  match v with
  | Some x => if within lo hi x then Some (Some x) else None
  | None => None
  end.

(** - [z.number().min(lo).max(hi).optional()] and
      [....optional().nullable()]: an absent field stays absent. *)
Definition optional (lo hi : R) (v : option R) : option (option R) :=
  match v with
  | Some x => if within lo hi x then Some (Some x) else None
  | None => Some None
  end.

(** - [z.number().min(lo).max(hi).optional().default(d)]: an absent field
      becomes [d]. *)
Definition defaulted (lo hi d : R) (v : option R) : option (option R) :=
  match v with
  | Some x => if within lo hi x then Some (Some x) else None
  | None => Some (Some d)
  end.

(** [z.enum(['Ah', 'kWh', 'Wh']).optional().default('Ah')]. *)
Definition unitField (v : option string) : option (option string) :=
  match v with
  | Some u =>
      if (String.eqb u "Ah" || String.eqb u "kWh" || String.eqb u "Wh")%bool
      then Some (Some u) else None
  | None => Some (Some "Ah"%string)
  end.

(** [batteryAnalysisSchema.parse(body)]: the validated and defaulted body,
    or [None] when a [ZodError] is thrown. *)
Definition batteryAnalysisSchema (body : Body.t) : option Body.t :=
  let input := Body.fields body in
  match defaulted 0 10000 0 (chargeCycles input),
        defaulted (-40) 80 25 (avgTemperature input),
        required 0.1 10000 (nominalCapacity input),
        optional 0 10000 (currentCapacity input),
        defaulted 0.1 5 0.8 (cRate input),
        defaulted 10 100 80 (dodPct input),
        optional 0 360 (calendarAgeMonths input),
        optional 0 30 (calendarAgeYears input),
        unitField (Body.unit body)
  with
  | Some chargeCycles, Some avgTemperature, Some nominalCapacity,
    Some currentCapacity, Some cRate, Some dodPct, Some calendarAgeMonths,
    Some calendarAgeYears, Some unit =>
      Some {| Body.fields :=
                {| chargeCycles := chargeCycles;
                   avgTemperature := avgTemperature;
                   nominalCapacity := nominalCapacity;
                   currentCapacity := currentCapacity;
                   dodPct := dodPct;
                   cRate := cRate;
                   calendarAgeMonths := calendarAgeMonths;
                   calendarAgeYears := calendarAgeYears |};
              Body.unit := unit |}
  | _, _, _, _, _, _, _, _, _ => None
  end.

(** ** [errorHandler] *)

(** The fields of an error object that the handler reads.  An absent
    [message] is the empty string, an absent [status] or [statusCode] is
    [None]. *)
Module Err.
Record t : Type := {
  name : string;
  message : string;
  stack : string;
  status : option nat;
  statusCode : option nat
}.
End Err.

(** The response: the status set by [res.status] and the JSON fields the
    handler writes (the timestamp is left out). *)
Module Response.
Record t : Type := {
  status : nat;
  error : string;
  message : string;
  stack : option string
}.
End Response.

(** [s.includes(t)]. *)
Definition includes (s t : string) : bool :=
  match String.index 0 t s with
  | Some _ => true
  | None => false
  end.

(** [a || b] on optional status numbers: [0] and an absent value are
    falsy. *)
Definition code_or (a : option nat) (b : nat) : nat :=
  match a with
  | Some (S n) => S n
  | _ => b
  end.

(** [errorHandler(err, req, res, next)], with
    [process.env.NODE_ENV === 'development'] as [development]; the
    logging is left out. *)
Definition errorHandler (development : bool) (err : Err.t) : Response.t :=
  if String.eqb (Err.name err) "ValidationError" then
    {| Response.status := 400;
       Response.error := "Validation Error";
       Response.message := Err.message err;
       Response.stack := None |}
  else if String.eqb (Err.name err) "CastError" then
    {| Response.status := 400;
       Response.error := "Invalid Data Format";
       Response.message := "Invalid data format provided";
       Response.stack := None |}
  else if (negb (String.eqb (Err.message err) "")
           && includes (Err.message err) "Battery analysis failed")%bool then
    {| Response.status := 422;
       Response.error := "Analysis Error";
       Response.message := Err.message err;
       Response.stack := None |}
  else if match Err.status err with Some 429%nat => true | _ => false end then
    {| Response.status := 429;
       Response.error := "Too Many Requests";
       Response.message := "Rate limit exceeded. Please try again later.";
       Response.stack := None |}
  else
    let statusCode :=
      code_or (Err.statusCode err) (code_or (Err.status err) 500) in
    {| Response.status := statusCode;
       Response.error :=
         if Nat.eqb statusCode 500 then "Internal Server Error" else "Error";
       Response.message :=
         if Nat.eqb statusCode 500 then "An internal server error occurred"
         else if String.eqb (Err.message err) "" then "An error occurred"
              else Err.message err;
       Response.stack := if development then Some (Err.stack err) else None |}.

(** The error object of a thrown [Error]: its name is ["Error"] and it
    carries no status. *)
Definition errorObject (e : jsError) (stack : string) : Err.t :=
  match e with
  | Error message =>
      {| Err.name := "Error"; Err.message := message; Err.stack := stack;
         Err.status := None; Err.statusCode := None |}
  end.

(** ** The spec's reading of the fade formulas and of the observed health *)

(** The cycle fade fraction as the specification words it, with the
    depth of discharge taken as it comes. *)
Definition spec_cycleFadeFraction (payload : Payload) (f : R) : R :=
  0.015 * f
  * Math_pow (dflt 80 (dodPct payload) / 100) 0.6
  * sqrt (Rmax (dflt 0 (chargeCycles payload)) 0)
  * (1 + Rmax 0 (dflt 0.8 (cRate payload) - 1) * 0.5).

(** The calendar fade fraction as the specification words it. *)
Definition spec_calendarFadeFraction (payload : Payload) (f : R) : R :=
  if Rlt_dec 0 (years payload)
  then 0.01 * f
       * exp (- 25000 / (8.314 * (dflt 25 (avgTemperature payload) + 273.15)))
       * Math_pow (years payload) 0.7
  else 0.

(** [clamp(currentCapacity / nominalCapacity * 100, 0, 100)]. *)
Definition measuredHealthPct (currentCapacity nominalCapacity : R) : R :=
  Rmax 0 (Rmin 100 (currentCapacity / nominalCapacity * 100)).

(** A profile as the data model has it: [nominalCapacity] is there and
    strictly positive. *)
Definition valid (payload : Payload) : Prop :=
  exists n, nominalCapacity payload = Some n /\ 0 < n.

(** The payload with its measurement removed. *)
Definition withoutMeasurement (payload : Payload) : Payload :=
  {| chargeCycles := chargeCycles payload;
     avgTemperature := avgTemperature payload;
     nominalCapacity := nominalCapacity payload;
     currentCapacity := None;
     dodPct := dodPct payload;
     cRate := cRate payload;
     calendarAgeMonths := calendarAgeMonths payload;
     calendarAgeYears := calendarAgeYears payload |}.

(** Payloads used as concrete inputs. *)

Definition emptyPayload : Payload :=
  {| chargeCycles := None; avgTemperature := None; nominalCapacity := None;
     currentCapacity := None; dodPct := None; cRate := None;
     calendarAgeMonths := None; calendarAgeYears := None |}.

(** [{nominalCapacity: 0}]. *)
Definition zeroNominal : Payload :=
  {| chargeCycles := None; avgTemperature := None; nominalCapacity := Some 0;
     currentCapacity := None; dodPct := None; cRate := None;
     calendarAgeMonths := None; calendarAgeYears := None |}.

(** [{nominalCapacity: 100, chargeCycles: 1, dodPct: 100, cRate: 1.25}]. *)
Definition oneFastCycle : Payload :=
  {| chargeCycles := Some 1; avgTemperature := None; nominalCapacity := Some 100;
     currentCapacity := None; dodPct := Some 100; cRate := Some 1.25;
     calendarAgeMonths := None; calendarAgeYears := None |}.

(** [{nominalCapacity: 100, currentCapacity: 0, chargeCycles: 550}]. *)
Definition zeroMeasurement : Payload :=
  {| chargeCycles := Some 550; avgTemperature := None; nominalCapacity := Some 100;
     currentCapacity := Some 0; dodPct := None; cRate := None;
     calendarAgeMonths := None; calendarAgeYears := None |}.

(** [{nominalCapacity: 100, currentCapacity: 0}]. *)
Definition deadBattery : Payload :=
  {| chargeCycles := None; avgTemperature := None; nominalCapacity := Some 100;
     currentCapacity := Some 0; dodPct := None; cRate := None;
     calendarAgeMonths := None; calendarAgeYears := None |}.

(** [{nominalCapacity: 100, currentCapacity: 84, chargeCycles: 50, dodPct: 0}]:
    the model predicts no fade, so the factor stays 1. *)
Definition idleBattery : Payload :=
  {| chargeCycles := Some 50; avgTemperature := None; nominalCapacity := Some 100;
     currentCapacity := Some 84; dodPct := Some 0; cRate := None;
     calendarAgeMonths := None; calendarAgeYears := None |}.

(** The scenario of the documentation:
    [{nominalCapacity: 100, currentCapacity: 84, chargeCycles: 550,
      avgTemperature: 32, dodPct: 80, cRate: 0.8, calendarAgeMonths: 24}]. *)
Definition scenario : Payload :=
  {| chargeCycles := Some 550; avgTemperature := Some 32;
     nominalCapacity := Some 100; currentCapacity := Some 84;
     dodPct := Some 80; cRate := Some 0.8;
     calendarAgeMonths := Some 24; calendarAgeYears := None |}.

(** The scenario measured at its full nominal capacity. *)
Definition fullCapacity : Payload :=
  {| chargeCycles := Some 550; avgTemperature := Some 32;
     nominalCapacity := Some 100; currentCapacity := Some 100;
     dodPct := Some 80; cRate := Some 0.8;
     calendarAgeMonths := Some 24; calendarAgeYears := None |}.

(** [{nominalCapacity: 100, calendarAgeYears: 10}]: ten years on the shelf,
    never cycled. *)
Definition shelfBattery : Payload :=
  {| chargeCycles := None; avgTemperature := None; nominalCapacity := Some 100;
     currentCapacity := None; dodPct := None; cRate := None;
     calendarAgeMonths := None; calendarAgeYears := Some 10 |}.

(** [{nominalCapacity: 100, currentCapacity: 84, chargeCycles: 40}]. *)
Definition youngBattery : Payload :=
  {| chargeCycles := Some 40; avgTemperature := None; nominalCapacity := Some 100;
     currentCapacity := Some 84; dodPct := None; cRate := None;
     calendarAgeMonths := None; calendarAgeYears := None |}.

(** A trend point within the ranges of its profile: the cycle within the
    sweep, the health a number of [[0, 100]], the capacity a number between
    0 and the rounded nominal capacity. *)
Definition inRange (nominal total : R) (point : Point.t) : Prop :=
  0 <= Point.cycle point <= total
  /\ exists h c,
       Point.healthPct point = Num h /\ 0 <= h <= 100
       /\ Point.capacity point = Num c /\ 0 <= c <= toFixed2 nominal.

(** The payload with its temperature replaced. *)
Definition withTemperature (payload : Payload) (t : R) : Payload :=
  {| chargeCycles := chargeCycles payload;
     avgTemperature := Some t;
     nominalCapacity := nominalCapacity payload;
     currentCapacity := currentCapacity payload;
     dodPct := dodPct payload;
     cRate := cRate payload;
     calendarAgeMonths := calendarAgeMonths payload;
     calendarAgeYears := calendarAgeYears payload |}.

(** [{nominalCapacity: 100, chargeCycles: 300, avgTemperature: 0}]: a
    battery kept at the freezing point. *)
Definition coldBattery : Payload :=
  {| chargeCycles := Some 300; avgTemperature := Some 0;
     nominalCapacity := Some 100; currentCapacity := None;
     dodPct := None; cRate := None;
     calendarAgeMonths := None; calendarAgeYears := None |}.

(** [{nominalCapacity: 100, currentCapacity: 50}]. *)
Definition wornBattery : Payload :=
  {| chargeCycles := None; avgTemperature := None; nominalCapacity := Some 100;
     currentCapacity := Some 50; dodPct := None; cRate := None;
     calendarAgeMonths := None; calendarAgeYears := None |}.

(** [{nominalCapacity: 100}], with no unit. *)
Definition minimalBody : Body.t :=
  {| Body.fields :=
       {| chargeCycles := None; avgTemperature := None;
          nominalCapacity := Some 100; currentCapacity := None;
          dodPct := None; cRate := None;
          calendarAgeMonths := None; calendarAgeYears := None |};
     Body.unit := None |}.

(** The fields of a body as the schema returns them: every defaulted field
    present, every field within its range. *)
Definition validated (input : Payload) : Prop :=
  (exists k, chargeCycles input = Some k /\ 0 <= k <= 10000)
  /\ (exists t, avgTemperature input = Some t /\ -40 <= t <= 80)
  /\ (exists n, nominalCapacity input = Some n /\ 0.1 <= n <= 10000)
  /\ (forall c, currentCapacity input = Some c -> 0 <= c <= 10000)
  /\ (exists r, cRate input = Some r /\ 0.1 <= r <= 5)
  /\ (exists d, dodPct input = Some d /\ 10 <= d <= 100)
  /\ (forall m, calendarAgeMonths input = Some m -> 0 <= m <= 360)
  /\ (forall y, calendarAgeYears input = Some y -> 0 <= y <= 30).

(** The request body [{nominalCapacity: 100, currentCapacity: 0}]. *)
Definition deadBody : Body.t :=
  {| Body.fields := deadBattery; Body.unit := None |}.

(** * Properties *)

(** ** Rounding *)

Section Rounding.

Lemma Math_floor_le (x : R) : Math_floor x <= x.
Proof. unfold Math_floor. destruct (base_Int_part x). lra. Qed.

Lemma Math_floor_gt (x : R) : x < Math_floor x + 1.
Proof. unfold Math_floor. destruct (base_Int_part x). lra. Qed.

Lemma Math_floor_IZR_frac (n : Z) (f : R) :
  0 <= f < 1 -> Math_floor (IZR n + f) = IZR n.
Proof.
  intros Hf. unfold Math_floor. f_equal. symmetry.
  apply Int_part_spec. lra.
Qed.

Lemma Math_floor_mono (x y : R) : x <= y -> Math_floor x <= Math_floor y.
Proof.
  intros Hxy. unfold Math_floor. apply IZR_le.
  destruct (base_Int_part x) as [Hx _], (base_Int_part y) as [_ Hy].
  assert (H : IZR (Int_part x) < IZR (Int_part y + 1)).
  { rewrite plus_IZR. lra. }
  apply lt_IZR in H. lia.
Qed.

Lemma Math_floor_nonneg (x : R) : 0 <= x -> 0 <= Math_floor x.
Proof.
  intros Hx. replace 0 with (Math_floor 0).
  - now apply Math_floor_mono.
  - replace 0 with (IZR 0 + 0) at 1 by lra. apply Math_floor_IZR_frac. lra.
Qed.

(** A nonnegative number of hundredths is left alone by [toFixed2]. *)
Lemma toFixed2_hundredths (n : Z) :
  (0 <= n)%Z -> toFixed2 (IZR n / 100) = IZR n / 100.
Proof.
  intros Hn. apply IZR_le in Hn. unfold toFixed2.
  destruct (Rlt_dec (IZR n / 100) 0) as [Hneg | _]; [lra|].
  replace (IZR n / 100 * 100 + / 2) with (IZR n + / 2) by lra.
  rewrite Math_floor_IZR_frac; lra.
Qed.

Lemma toFixed2_100 : toFixed2 100 = 100.
Proof.
  replace 100 with (IZR 10000 / 100) at 1 by lra.
  rewrite toFixed2_hundredths; [lra | lia].
Qed.

Lemma toFixed2_84 : toFixed2 84 = 84.
Proof.
  replace 84 with (IZR 8400 / 100) at 1 by lra.
  rewrite toFixed2_hundredths; [lra | lia].
Qed.

Lemma toFixed2_mono (x y : R) :
  0 <= x -> x <= y -> toFixed2 x <= toFixed2 y.
Proof.
  intros Hx Hxy. unfold toFixed2.
  destruct (Rlt_dec x 0); [lra|]. destruct (Rlt_dec y 0); [lra|].
  assert (H : Math_floor (x * 100 + / 2) <= Math_floor (y * 100 + / 2))
    by (apply Math_floor_mono; lra).
  lra.
Qed.

Lemma toFixed2_nonneg (x : R) : 0 <= x -> 0 <= toFixed2 x.
Proof.
  intros Hx. unfold toFixed2. destruct (Rlt_dec x 0); [lra|].
  assert (0 <= Math_floor (x * 100 + / 2)) by (apply Math_floor_nonneg; lra).
  lra.
Qed.

End Rounding.

(** ** Powers and the Arrhenius factor *)

Section Powers.

Lemma Math_pow_nonneg (x y : R) : 0 <= Math_pow x y.
Proof.
  unfold Math_pow. destruct (Req_dec_T x 0); [lra|].
  unfold Rpower. left. apply exp_pos.
Qed.

Lemma exp_le (x y : R) : x <= y -> exp x <= exp y.
Proof.
  intros [H | ->]; [left; now apply exp_increasing | lra].
Qed.

(** [Math.pow] is monotone in a nonnegative base for a nonnegative
    exponent. *)
Lemma Math_pow_mono (x y c : R) :
  0 <= c -> 0 <= x -> x <= y -> Math_pow x c <= Math_pow y c.
Proof.
  intros Hc Hx Hxy. unfold Math_pow.
  destruct (Req_dec_T x 0) as [-> | Hx0].
  - destruct (Req_dec_T y 0); [lra|]. unfold Rpower. left. apply exp_pos.
  - destruct (Req_dec_T y 0); [lra|].
    apply Rle_Rpower_l; lra.
Qed.

Lemma Math_pow_1 (c : R) : Math_pow 1 c = 1.
Proof.
  unfold Math_pow. destruct (Req_dec_T 1 0); [lra|].
  unfold Rpower. rewrite ln_1, Rmult_0_r. apply exp_0.
Qed.

(** For an exponent in [[0, 1]], [x ^ c] lies between [x] and [1] when
    [0 < x <= 1], and between [1] and [x] when [1 <= x]. *)
Lemma Math_pow_small (x c : R) :
  0 <= c <= 1 -> 0 < x <= 1 -> x <= Math_pow x c <= 1.
Proof.
  intros Hc Hx. unfold Math_pow. destruct (Req_dec_T x 0); [lra|].
  unfold Rpower.
  assert (Hln : ln x <= 0).
  { destruct (proj2 Hx) as [Hlt | ->]; [|rewrite ln_1; lra].
    left. rewrite <- ln_1. apply ln_increasing; lra. }
  split.
  - rewrite <- (exp_ln x) at 1 by lra. apply exp_le. nra.
  - rewrite <- exp_0. apply exp_le. nra.
Qed.

Lemma Math_pow_large (x c : R) :
  0 <= c <= 1 -> 1 <= x -> 1 <= Math_pow x c <= x.
Proof.
  intros Hc Hx. unfold Math_pow. destruct (Req_dec_T x 0); [lra|].
  unfold Rpower.
  assert (Hln : 0 <= ln x).
  { destruct Hx as [Hlt | <-]; [|rewrite ln_1; lra].
    left. rewrite <- ln_1. apply ln_increasing; lra. }
  split.
  - rewrite <- exp_0. apply exp_le. nra.
  - rewrite <- (exp_ln x) at 2 by lra. apply exp_le. nra.
Qed.

Lemma arrhenius_pos (Tk E : R) : 0 < arrhenius Tk E.
Proof. unfold arrhenius. apply exp_pos. Qed.

End Powers.


(** ** Truthiness and comparisons of optional fields *)

(** Case analysis on the comparisons of reals in the goal, innermost
    first. *)
Ltac no_dec t :=
  lazymatch t with
  | context [Rlt_dec _ _] => fail
  | context [Rle_dec _ _] => fail
  | context [Rge_dec _ _] => fail
  | context [Req_dec_T _ _] => fail
  | _ => idtac
  end.

Ltac case_R :=
  repeat match goal with
    | |- context [Rlt_dec ?a ?b] => no_dec a; no_dec b; destruct (Rlt_dec a b)
    | |- context [Rle_dec ?a ?b] => no_dec a; no_dec b; destruct (Rle_dec a b)
    | |- context [Rge_dec ?a ?b] => no_dec a; no_dec b; destruct (Rge_dec a b)
    | |- context [Req_dec_T ?a ?b] => no_dec a; no_dec b; destruct (Req_dec_T a b)
    end.

Ltac Rminmax := unfold Rmax, Rmin in *; case_R; try lra.

(** A product of nonnegative factors is nonnegative. *)
Ltac prod_nonneg :=
  repeat match goal with
    | |- 0 <= _ * _ => apply Rmult_le_pos
    end; try lra.

Lemma truthy_true (v : option R) :
  truthy v = true <-> exists x, v = Some x /\ x <> 0.
Proof.
  unfold truthy. destruct v as [x|].
  - destruct (Req_dec_T x 0) as [-> | Hx]; split.
    + discriminate.
    + intros (y & [= <-] & Hy). now destruct Hy.
    + intros _. now exists x.
    + reflexivity.
  - split; [discriminate | intros (x & [=] & _)].
Qed.

Lemma truthy_false (v : option R) :
  truthy v = false <-> v = None \/ v = Some 0.
Proof.
  unfold truthy. destruct v as [x|].
  - destruct (Req_dec_T x 0) as [-> | Hx]; split; auto.
    + discriminate.
    + intros [[=] | [= ->]]. now destruct Hx.
  - split; auto.
Qed.

Lemma js_lt_true (v : option R) (c : R) :
  js_lt v c = true <-> exists x, v = Some x /\ x < c.
Proof.
  unfold js_lt. destruct v as [x|].
  - destruct (Rlt_dec x c) as [Hx | Hx]; split.
    + intros _. now exists x.
    + reflexivity.
    + discriminate.
    + intros (y & [= <-] & Hy). now destruct Hx.
  - split; [discriminate | intros (x & [=] & _)].
Qed.

Lemma js_lt_false_Some (x c : R) : c <= x -> js_lt (Some x) c = false.
Proof. intros Hx. unfold js_lt. destruct (Rlt_dec x c); [lra | reflexivity]. Qed.

(** ** The fade model *)

Section FadeModel.

Variable payload : Payload.

Lemma years_nonneg : 0 <= years payload.
Proof. unfold years. destruct (calendarAgeYears payload); Rminmax. Qed.

Lemma cRateAccel_spec :
  cRateAccel payload = 1 + Rmax 0 (dflt 0.8 (cRate payload) - 1) * 0.5.
Proof. unfold cRateAccel. Rminmax. Qed.

Lemma cRateAccel_ge_1 : 1 <= cRateAccel payload.
Proof. unfold cRateAccel. case_R; lra. Qed.

Lemma DoD_factor_nonneg : 0 <= DoD_factor payload.
Proof. apply Math_pow_nonneg. Qed.

(** The calibration factor multiplies both fade fractions. *)
Lemma cycleFadeFraction_scale (f : R) :
  cycleFadeFraction payload f = f * cycleFadeFraction payload 1.
Proof. unfold cycleFadeFraction, k_c_base. ring. Qed.

Lemma calendarFadeFraction_scale (f : R) :
  calendarFadeFraction payload f = f * calendarFadeFraction payload 1.
Proof.
  unfold calendarFadeFraction, k_t_base.
  destruct (Rlt_dec 0 (years payload)); ring.
Qed.

Lemma totalFadePct_scale (f : R) :
  totalFadePct payload f = f * totalFadePct payload 1.
Proof.
  unfold totalFadePct.
  rewrite cycleFadeFraction_scale, calendarFadeFraction_scale. ring.
Qed.

Lemma cycleFadeFraction_nonneg (f : R) :
  0 <= f -> 0 <= cycleFadeFraction payload f.
Proof.
  intros Hf. unfold cycleFadeFraction, k_c_base.
  pose proof DoD_factor_nonneg. pose proof cRateAccel_ge_1.
  pose proof (sqrt_pos (Rmax (dflt 0 (chargeCycles payload)) 0)).
  prod_nonneg.
Qed.

Lemma calendarFadeFraction_nonneg (f : R) :
  0 <= f -> 0 <= calendarFadeFraction payload f.
Proof.
  intros Hf. unfold calendarFadeFraction, k_t_base.
  destruct (Rlt_dec 0 (years payload)); [|lra].
  pose proof (arrhenius_pos (dflt 25 (avgTemperature payload) + 273.15) Ea).
  pose proof (Math_pow_nonneg (years payload) beta).
  prod_nonneg.
Qed.

Lemma totalFadePct_nonneg (f : R) : 0 <= f -> 0 <= totalFadePct payload f.
Proof.
  intros Hf. unfold totalFadePct.
  pose proof (cycleFadeFraction_nonneg f Hf).
  pose proof (calendarFadeFraction_nonneg f Hf). lra.
Qed.

(** No cycles and no elapsed time: no fade. *)
Lemma zero_stress_fade (f : R) :
  Rmax (dflt 0 (chargeCycles payload)) 0 = 0 -> years payload = 0 ->
  totalFadePct payload f = 0.
Proof.
  intros Hc Hy. unfold totalFadePct, cycleFadeFraction, calendarFadeFraction.
  rewrite Hc, Hy, sqrt_0. destruct (Rlt_dec 0 0); [lra | ring].
Qed.

Lemma modelHealthPct_eq (f : R) :
  modelHealthPct (computeDegradation payload f)
  = Rmax 0 (100 - totalFadePct payload f).
Proof. reflexivity. Qed.

Lemma healthPct_unmeasured (f : R) :
  truthy (currentCapacity payload) = false ->
  healthPct (computeDegradation payload f)
  = Rmax 0 (100 - totalFadePct payload f).
Proof. intros H. unfold computeDegradation. cbn. now rewrite H. Qed.

Lemma healthPct_measured (f c : R) :
  currentCapacity payload = Some c -> c <> 0 ->
  healthPct (computeDegradation payload f)
  = measuredHealthPct c (dflt 100 (nominalCapacity payload)).
Proof.
  intros Hc Hc0. unfold computeDegradation. cbn.
  assert (Ht : truthy (currentCapacity payload) = true)
    by (apply truthy_true; eauto).
  now rewrite Ht, Hc.
Qed.

End FadeModel.

(** ** The calibration factor *)

Lemma calibration_noop (payload : Payload) :
  truthy (currentCapacity payload) = false
  \/ js_lt (chargeCycles payload) 50 = true ->
  calculateCalibrationFactor payload = Num 1.
Proof.
  intros H. unfold calculateCalibrationFactor.
  destruct H as [-> | ->]; [reflexivity | now rewrite orb_true_r].
Qed.

(** With [nominalCapacity] present the factor is a number of
    [[0.1, 3]], and it is [1] when the model predicts a fade under 0.1. *)
Lemma calibration_number (payload : Payload) (n : R) :
  nominalCapacity payload = Some n ->
  exists f, calculateCalibrationFactor payload = Num f
            /\ 0.1 <= f <= 3
            /\ (100 - modelHealthPct (computeDegradation payload 1) < 0.1 ->
                f = 1).
Proof.
  intros Hn. unfold calculateCalibrationFactor. rewrite Hn.
  destruct (negb _ || _)%bool.
  - exists 1. repeat split; lra.
  - cbv zeta. destruct (Rlt_dec _ 0.1) as [Hlt | Hge].
    + exists 1. repeat split; lra.
    + eexists. split; [reflexivity|]. cbn beta. split; [Rminmax|].
      intros Hlt. now destruct Hge.
Qed.

(** ** Sorted lists *)

Lemma StronglySorted_snoc {A : Type} (Rel : A -> A -> Prop) (l : list A) (a : A) :
  StronglySorted Rel l -> Forall (fun x => Rel x a) l ->
  StronglySorted Rel (l ++ [a]).
Proof.
  induction 1 as [| x l Hl IH Hx]; intros Ha; cbn.
  - repeat constructor.
  - inversion Ha; subst. constructor; [now apply IH|].
    apply Forall_app. split; [assumption | now repeat constructor].
Qed.

(** The image of consecutive naturals under a map that respects [Rel]
    between any earlier and later index is sorted. *)
Lemma StronglySorted_map_seq {A : Type} (Rel : A -> A -> Prop) (g : nat -> A)
    (k m : nat) :
  (forall i j : nat, (k <= i < j)%nat -> (j < k + m)%nat -> Rel (g i) (g j)) ->
  StronglySorted Rel (map g (seq k m)).
Proof.
  revert k. induction m as [| m IH]; intros k Hg; cbn; constructor.
  - apply IH. intros i j Hij Hj. apply Hg; lia.
  - apply Forall_forall. intros x Hx.
    apply in_map_iff in Hx as (j & <- & Hj). apply in_seq in Hj.
    apply Hg; lia.
Qed.

(** ** The sampling loop of [buildTrend] *)

Section Sampling.

Variable payload : Payload.
Variable calibrationFactor : number.

Lemma totalCycles_nonneg : 0 <= totalCycles payload.
Proof. unfold totalCycles. Rminmax. Qed.

Lemma step_ge_25 : 25 <= step payload.
Proof. unfold step. Rminmax. Qed.

Lemma sample_S (j : nat) : sample payload j + step payload = sample payload (S j).
Proof. unfold sample. rewrite S_INR. ring. Qed.

Lemma sample_lt (i j : nat) : (i < j)%nat -> sample payload i < sample payload j.
Proof.
  intros Hij. unfold sample. pose proof step_ge_25.
  apply Rmult_lt_compat_r; [lra | now apply lt_INR].
Qed.

Lemma sample_nonneg (j : nat) : 0 <= sample payload j.
Proof.
  unfold sample. pose proof step_ge_25. pose proof (pos_INR j). prod_nonneg.
Qed.

(** Twenty-one steps always pass the end: the loop body runs at most 21
    times whatever the cycle count. *)
Lemma step_covers : totalCycles payload < sample payload 21.
Proof.
  unfold sample. replace (INR 21) with 21 by (cbn; lra).
  pose proof totalCycles_nonneg as Hn. unfold step.
  set (tc := totalCycles payload) in *.
  pose proof (Math_floor_gt (tc / 20)) as Hfl.
  destruct (Rlt_dec tc 525) as [Hsmall | Hbig].
  - Rminmax.
  - assert (Hor : or_else (Math_floor (tc / 20)) 25 = Math_floor (tc / 20)).
    { unfold or_else. destruct (Req_dec_T (Math_floor (tc / 20)) 0); lra. }
    rewrite Hor. Rminmax.
Qed.

(** What the loop returns when it returns. *)
Lemma trendLoop_run (fuel k : nat) (points result : list Point.t) :
  trendLoop fuel payload calibrationFactor (sample payload k) points = Some result ->
  exists m : nat,
    result = points
             ++ map (fun j => loopPoint payload calibrationFactor (sample payload j))
                  (seq k m)
    /\ (forall j, (k <= j < k + m)%nat -> sample payload j <= totalCycles payload)
    /\ totalCycles payload < sample payload (k + m).
Proof.
  revert k points. induction fuel as [| fuel IH]; intros k points; cbn.
  - discriminate.
  - destruct (Rle_dec (sample payload k) (totalCycles payload)) as [Hle | Hgt].
    + rewrite sample_S. intros Hrun.
      apply IH in Hrun as (m & -> & Hin & Hout).
      exists (S m). cbn. rewrite <- app_assoc. cbn.
      split; [reflexivity|]. split.
      * intros j Hj. destruct (Nat.eq_dec j k) as [-> | Hjk]; [assumption|].
        apply Hin. lia.
      * now replace (k + S m)%nat with (S k + m)%nat by lia.
    + intros [= <-]. exists 0%nat. cbn. rewrite app_nil_r, Nat.add_0_r.
      split; [reflexivity|]. split; [intros j Hj; lia | lra].
Qed.

(** The loop returns as soon as the fuel covers the sweep. *)
Lemma trendLoop_returns (fuel k : nat) (points : list Point.t) :
  totalCycles payload < sample payload (k + fuel) ->
  exists result,
    trendLoop (S fuel) payload calibrationFactor (sample payload k) points = Some result.
Proof.
  revert k points. induction fuel as [| fuel IH]; intros k points Hcover.
  - rewrite Nat.add_0_r in Hcover. cbn.
    destruct (Rle_dec (sample payload k) (totalCycles payload)); [lra | eauto].
  - cbn [trendLoop].
    destruct (Rle_dec (sample payload k) (totalCycles payload)); [|eauto].
    rewrite sample_S. apply IH.
    now replace (S k + fuel)%nat with (k + S fuel)%nat by lia.
Qed.

End Sampling.

(** [buildTrend] returns for any fuel of 22 or more, and what it returns
    is [trendOf] for the number of steps that fit in the cycle count. *)
Lemma buildTrend_returns (payload : Payload) (fuel : nat) :
  (22 <= fuel)%nat ->
  exists m : nat,
    sample payload m <= totalCycles payload < sample payload (S m)
    /\ buildTrend fuel payload
       = Some (Returned (trendOf payload (calculateCalibrationFactor payload) m)).
Proof.
  intros Hfuel. unfold buildTrend.
  set (cf := calculateCalibrationFactor payload).
  destruct fuel as [| fuel]; [lia|].
  destruct (trendLoop_returns payload cf fuel 0 []) as [result Hrun].
  { apply Rlt_le_trans with (1 := step_covers payload).
    destruct (Nat.eq_dec fuel 21) as [-> | Hne]; [cbn; lra|].
    left. apply sample_lt. lia. }
  assert (H0 : sample payload 0 = 0) by (unfold sample; cbn; ring).
  rewrite H0 in Hrun. rewrite Hrun.
  rewrite <- H0 in Hrun.
  apply trendLoop_run in Hrun as (m & -> & Hin & Hout). cbn [app plus] in *.
  destruct m as [| m].
  - exfalso. rewrite H0 in Hout. pose proof (totalCycles_nonneg payload). lra.
  - exists m. split; [split; [apply Hin; lia | assumption]|].
    unfold trendOf. rewrite seq_S, map_app, rev_app_distr.
    cbn [map rev app plus Point.cycle loopPoint mkPoint].
    destruct (Rlt_dec (sample payload m) (totalCycles payload)).
    + reflexivity.
    + now rewrite app_nil_r.
Qed.

(** ** The shape of the returned sequence *)

Section TrendShape.

Variable payload : Payload.
Variable calibrationFactor : number.
Variable m : nat.
Hypothesis Hfits : sample payload m <= totalCycles payload.

Lemma sample_0 : sample payload 0 = 0.
Proof. unfold sample. cbn. ring. Qed.

Lemma trendOf_first :
  exists rest,
    trendOf payload calibrationFactor m
    = loopPoint payload calibrationFactor 0 :: rest.
Proof.
  unfold trendOf. cbn [seq map app]. rewrite sample_0. eauto.
Qed.

Lemma trendOf_last :
  exists front lastPoint,
    trendOf payload calibrationFactor m = front ++ [lastPoint]
    /\ Point.cycle lastPoint = totalCycles payload
    /\ (lastPoint = endPoint payload calibrationFactor
        \/ lastPoint = loopPoint payload calibrationFactor (totalCycles payload)).
Proof.
  unfold trendOf.
  destruct (Rlt_dec (sample payload m) (totalCycles payload)) as [Hlt | Hge].
  - eexists _, _. split; [reflexivity|]. split; [reflexivity | now left].
  - rewrite app_nil_r, seq_S, map_app. cbn [map plus].
    assert (Heq : sample payload m = totalCycles payload) by lra.
    rewrite Heq. eexists _, _. split; [reflexivity|].
    split; [reflexivity | now right].
Qed.

Lemma trendOf_ascending : ascending (trendOf payload calibrationFactor m).
Proof.
  unfold ascending, trendOf.
  assert (Hloop : StronglySorted (fun a b => Point.cycle a < Point.cycle b)
            (map (fun j => loopPoint payload calibrationFactor (sample payload j))
               (seq 0 (S m)))).
  { apply StronglySorted_map_seq. intros i j Hij _. cbn.
    apply sample_lt. lia. }
  destruct (Rlt_dec (sample payload m) (totalCycles payload)) as [Hlt | Hge].
  - apply StronglySorted_snoc; [assumption|].
    apply Forall_forall. intros x Hx.
    apply in_map_iff in Hx as (j & <- & Hj). apply in_seq in Hj. cbn.
    destruct (Nat.eq_dec j m) as [-> | Hjm]; [assumption|].
    apply Rlt_trans with (2 := Hlt). apply sample_lt. lia.
  - now rewrite app_nil_r.
Qed.

End TrendShape.

(** ** Health along the sweep *)

Section SweepHealth.

Variable payload : Payload.

(** The divisor of the loop's time scaling is at least 1 and at least
    the cycle count. *)
Lemma scale_bounds :
  1 <= Rmax (or_else (totalCycles payload) 1) 1
  /\ totalCycles payload <= Rmax (or_else (totalCycles payload) 1) 1.
Proof.
  pose proof (totalCycles_nonneg payload).
  unfold or_else. destruct (Req_dec_T (totalCycles payload) 0); Rminmax.
Qed.

Lemma loopSim_health (i f : R) :
  healthPct (computeDegradation (loopSim payload i) f)
  = Rmax 0 (100 - totalFadePct (loopSim payload i) f).
Proof. now apply healthPct_unmeasured. Qed.

Lemma endSim_health (f : R) :
  healthPct (computeDegradation (endSim payload) f)
  = Rmax 0 (100 - totalFadePct (endSim payload) f).
Proof. now apply healthPct_unmeasured. Qed.

(** At cycle 0 nothing has faded. *)
Lemma loopSim_0_fade (f : R) : totalFadePct (loopSim payload 0) f = 0.
Proof.
  unfold totalFadePct, cycleFadeFraction, calendarFadeFraction, years.
  cbn [loopSim chargeCycles calendarAgeYears dflt].
  replace (Rmax 0 0) with 0 by Rminmax. rewrite sqrt_0.
  replace (Rmax _ 0) with 0.
  - destruct (Rlt_dec 0 0); [lra | ring].
  - unfold Rdiv at 1. rewrite Rmult_0_l, Rmult_0_r. Rminmax.
Qed.

Lemma loopPoint_0 (f : R) :
  loopPoint payload (Num f) 0
  = {| Point.cycle := 0;
       Point.healthPct := Num 100;
       Point.capacity :=
         Num (toFixed2 (100 / 100 * dflt 100 (nominalCapacity payload))) |}.
Proof.
  unfold loopPoint, mkPoint. cbn [number_map].
  rewrite loopSim_health, loopSim_0_fade.
  replace (Rmax 0 (100 - 0)) with 100 by Rminmax.
  now rewrite toFixed2_100.
Qed.

End SweepHealth.

(** ** Monotonicity of the fade *)

(** Between two simulated payloads that share depth of discharge, charge
    rate and temperature, more cycles and more years mean more fade. *)
Lemma totalFadePct_mono (s1 s2 : Payload) (f : R) :
  0 <= f ->
  DoD_factor s1 = DoD_factor s2 ->
  cRateAccel s1 = cRateAccel s2 ->
  dflt 25 (avgTemperature s1) = dflt 25 (avgTemperature s2) ->
  Rmax (dflt 0 (chargeCycles s1)) 0 <= Rmax (dflt 0 (chargeCycles s2)) 0 ->
  years s1 <= years s2 ->
  totalFadePct s1 f <= totalFadePct s2 f.
Proof.
  intros Hf HD Ha HT Hc Hy.
  assert (Hcycle : cycleFadeFraction s1 f <= cycleFadeFraction s2 f).
  { unfold cycleFadeFraction, k_c_base. rewrite HD, Ha.
    pose proof (DoD_factor_nonneg s2). pose proof (cRateAccel_ge_1 s2).
    apply sqrt_le_1_alt in Hc.
    apply Rmult_le_compat_r; [lra|].
    apply Rmult_le_compat_l; [prod_nonneg | assumption]. }
  assert (Hcal : calendarFadeFraction s1 f <= calendarFadeFraction s2 f).
  { pose proof (calendarFadeFraction_nonneg s2 f Hf) as Hpos.
    unfold calendarFadeFraction in *. cbv zeta in *. rewrite HT.
    destruct (Rlt_dec 0 (years s1)) as [H1 | H1]; [|assumption].
    destruct (Rlt_dec 0 (years s2)) as [H2 | H2]; [|lra].
    pose proof (arrhenius_pos (dflt 25 (avgTemperature s2) + 273.15) Ea).
    apply Rmult_le_compat_l; [unfold k_t_base; prod_nonneg|].
    apply Math_pow_mono; unfold beta; lra. }
  unfold totalFadePct. lra.
Qed.

Section SweepMonotone.

Variable payload : Payload.

Lemma loopSim_years (i : R) :
  years (loopSim payload i)
  = Rmax (calendarAge payload
          * (i / Rmax (or_else (totalCycles payload) 1) 1)) 0.
Proof. reflexivity. Qed.

Lemma endSim_years : years (endSim payload) = Rmax (calendarAge payload) 0.
Proof. reflexivity. Qed.

Lemma loopSim_years_mono (i j : R) :
  0 <= i -> i <= j -> years (loopSim payload i) <= years (loopSim payload j).
Proof.
  intros Hi Hij. rewrite !loopSim_years.
  destruct scale_bounds with (payload := payload) as [HM _].
  set (M := Rmax _ 1) in *. set (Y := calendarAge payload).
  assert (Hinv : 0 < / M) by (apply Rinv_0_lt_compat; lra).
  assert (Hq : 0 <= i / M <= j / M) by (unfold Rdiv; split; nra).
  generalize dependent (i / M). generalize dependent (j / M).
  clear. intros q' q Hq.
  destruct (Rle_dec 0 Y) as [HY | HY].
  - assert (Y * q <= Y * q') by nra. Rminmax.
  - assert (Y * q <= 0 /\ Y * q' <= 0) by (split; nra). Rminmax.
Qed.

Lemma loopSim_years_end (i : R) :
  0 <= i -> i <= totalCycles payload ->
  years (loopSim payload i) <= years (endSim payload).
Proof.
  intros Hi Hle. rewrite loopSim_years, endSim_years.
  destruct scale_bounds with (payload := payload) as [HM Htc].
  set (M := Rmax _ 1) in *. set (Y := calendarAge payload).
  assert (Hinv : 0 < / M) by (apply Rinv_0_lt_compat; lra).
  assert (Hq : 0 <= i / M <= 1).
  { unfold Rdiv. split; [nra|].
    replace 1 with (M * / M) by (field; lra). nra. }
  generalize dependent (i / M). clear. intros q Hq.
  destruct (Rle_dec 0 Y) as [HY | HY].
  - assert (Y * q <= Y) by nra. Rminmax.
  - assert (Y * q <= 0) by nra. Rminmax.
Qed.

Lemma loopSim_fade_mono (f i j : R) :
  0 <= f -> 0 <= i -> i <= j ->
  totalFadePct (loopSim payload i) f <= totalFadePct (loopSim payload j) f.
Proof.
  intros Hf Hi Hij. apply totalFadePct_mono; try reflexivity; try assumption.
  - cbn. Rminmax.
  - now apply loopSim_years_mono.
Qed.

Lemma loopSim_fade_end (f i : R) :
  0 <= f -> 0 <= i -> i <= totalCycles payload ->
  totalFadePct (loopSim payload i) f <= totalFadePct (endSim payload) f.
Proof.
  intros Hf Hi Hle. apply totalFadePct_mono; try reflexivity; try assumption.
  - cbn. Rminmax.
  - now apply loopSim_years_end.
Qed.

(** Less fade, then at least as much rounded health. *)
Lemma rounded_health_antitone (F G : R) :
  F <= G -> toFixed2 (Rmax 0 (100 - F)) >= toFixed2 (Rmax 0 (100 - G)).
Proof. intros HFG. apply Rle_ge, toFixed2_mono; Rminmax. Qed.

(** The rounded health values of the returned sequence never go up. *)
Lemma trendOf_health (f : R) (m : nat) :
  0 <= f -> sample payload m <= totalCycles payload ->
  exists values,
    map Point.healthPct (trendOf payload (Num f) m) = map Num values
    /\ nonIncreasing values.
Proof.
  intros Hf Hfits.
  exists (map (fun j => toFixed2 (healthPct
                 (computeDegradation (loopSim payload (sample payload j)) f)))
            (seq 0 (S m))
          ++ (if Rlt_dec (sample payload m) (totalCycles payload)
              then [toFixed2 (healthPct (computeDegradation (endSim payload) f))]
              else [])).
  split.
  - unfold trendOf. rewrite !map_app, !map_map.
    f_equal. now destruct (Rlt_dec _ _).
  - unfold nonIncreasing.
    assert (Hloop : StronglySorted Rge
              (map (fun j => toFixed2 (healthPct
                      (computeDegradation (loopSim payload (sample payload j)) f)))
                 (seq 0 (S m)))).
    { apply StronglySorted_map_seq. intros i j Hij _.
      rewrite !loopSim_health. apply rounded_health_antitone.
      apply loopSim_fade_mono; [assumption | apply sample_nonneg |].
      left. apply sample_lt. lia. }
    destruct (Rlt_dec (sample payload m) (totalCycles payload)) as [Hlt | Hge].
    + apply StronglySorted_snoc; [assumption|].
      apply Forall_forall. intros x Hx.
      apply in_map_iff in Hx as (j & <- & Hj). apply in_seq in Hj.
      rewrite loopSim_health, endSim_health. apply rounded_health_antitone.
      apply loopSim_fade_end; [assumption | apply sample_nonneg |].
      destruct (Nat.eq_dec j m) as [-> | Hjm]; [assumption|].
      apply Rle_trans with (2 := Hfits). left. apply sample_lt. lia.
    + now rewrite app_nil_r.
Qed.

End SweepMonotone.

(** ** The end point and the documented scenario *)

(** The end point is evaluated at the cycle count and the calendar age of
    the payload itself. *)
Lemma endSim_fade (payload : Payload) (f : R) :
  totalFadePct (endSim payload) f = totalFadePct payload f.
Proof.
  assert (Hy : years (endSim payload) = years payload).
  { unfold years, endSim, calendarAge. cbn.
    now destruct (calendarAgeYears payload). }
  unfold totalFadePct, cycleFadeFraction, calendarFadeFraction.
  rewrite Hy. cbn [endSim chargeCycles avgTemperature dflt].
  replace (Rmax (totalCycles payload) 0)
    with (Rmax (dflt 0 (chargeCycles payload)) 0)
    by (unfold totalCycles; Rminmax).
  reflexivity.
Qed.

Section Scenario.

Lemma scenario_step : step scenario = 27.
Proof.
  unfold step, totalCycles. cbn [scenario chargeCycles dflt].
  replace (Rmax 550 0) with 550 by Rminmax.
  replace (550 / 20) with (IZR 27 + 0.5) by lra.
  rewrite Math_floor_IZR_frac by lra.
  unfold or_else. destruct (Req_dec_T 27 0); [lra|]. Rminmax.
Qed.

Lemma sqrt_550 : 23 <= sqrt 550 <= 24.
Proof.
  split.
  - rewrite <- (sqrt_square 23) at 1 by lra. apply sqrt_le_1_alt. lra.
  - rewrite <- (sqrt_square 24) at 1 by lra. apply sqrt_le_1_alt. lra.
Qed.

(** The uncalibrated model puts the scenario's fade between 27.6 and 38
    percent. *)
Lemma scenario_fade_bounds : 27.6 <= totalFadePct scenario 1 <= 38.
Proof.
  unfold totalFadePct, cycleFadeFraction, calendarFadeFraction, DoD_factor,
    cRateAccel, years, k_c_base, k_t_base, alpha, beta.
  cbn [scenario chargeCycles dodPct cRate calendarAgeYears calendarAgeMonths
         avgTemperature dflt].
  replace (Rmax 550 0) with 550 by Rminmax.
  replace (Rmax 80 0 / 100) with 0.8 by Rminmax.
  replace (Rmax (24 / 12) 0) with 2 by Rminmax.
  destruct (Rlt_dec 1 0.8); [lra|]. destruct (Rlt_dec 0 2); [|lra].
  pose proof sqrt_550 as Hs.
  assert (HD : 0.8 <= Math_pow 0.8 0.6 <= 1) by (apply Math_pow_small; lra).
  assert (HP : 1 <= Math_pow 2 0.7 <= 2) by (apply Math_pow_large; lra).
  assert (HA : 0 < arrhenius (32 + 273.15) Ea <= 1).
  { split; [apply arrhenius_pos|]. unfold arrhenius, Ea, R_gas.
    rewrite <- exp_0. apply exp_le.
    assert (0 < / (8.314 * (32 + 273.15))) by (apply Rinv_0_lt_compat; lra).
    unfold Rdiv. nra. }
  set (D := Math_pow 0.8 0.6) in *. set (P := Math_pow 2 0.7) in *.
  set (A := arrhenius _ _) in *. set (s := sqrt 550) in *.
  assert (0.8 * 23 <= D * s <= 24) by nra.
  assert (0 <= A * P <= 2) by nra.
  lra.
Qed.

(** The calibration rescales the model so that its fade at the
    measurement point is the measured 16 percent. *)
Lemma scenario_calibration :
  exists f, calculateCalibrationFactor scenario = Num f
            /\ f * totalFadePct scenario 1 = 16.
Proof.
  pose proof scenario_fade_bounds as HF.
  unfold calculateCalibrationFactor.
  assert (Ht : truthy (currentCapacity scenario) = true).
  { apply truthy_true. exists 84. split; [reflexivity | lra]. }
  assert (Hc : js_lt (chargeCycles scenario) 50 = false)
    by (apply js_lt_false_Some; lra).
  rewrite Ht, Hc. cbn [negb orb]. cbv zeta. rewrite modelHealthPct_eq.
  set (F := totalFadePct scenario 1) in *.
  replace (100 - Rmax 0 (100 - F)) with F by Rminmax.
  destruct (Rlt_dec F 0.1); [lra|].
  cbn [scenario nominalCapacity currentCapacity dflt number_map].
  eexists. split; [reflexivity|].
  replace (100 - 84 / 100 * 100) with 16 by lra.
  assert (Hq : 16 / F * F = 16) by (field; lra).
  assert (Hb : 0.4 <= 16 / F <= 0.6) by (split; nra).
  clearbody F.
  replace (Rmax 0.1 (Rmin 3 (16 / F))) with (16 / F) by Rminmax.
  exact Hq.
Qed.

(** Twenty steps of 27 fit in 550 cycles. *)
Lemma scenario_samples (m : nat) :
  sample scenario m <= totalCycles scenario < sample scenario (S m) ->
  m = 20%nat.
Proof.
  unfold sample, totalCycles. rewrite scenario_step.
  cbn [scenario chargeCycles dflt]. replace (Rmax 550 0) with 550 by Rminmax.
  rewrite S_INR, INR_IZR_INZ. intros [Hlo Hhi].
  assert (H1 : IZR (Z.of_nat m) < IZR 21) by lra.
  assert (H2 : IZR 19 < IZR (Z.of_nat m)) by lra.
  apply lt_IZR in H1, H2. lia.
Qed.

Lemma scenario_endPoint (f : R) :
  f * totalFadePct scenario 1 = 16 ->
  endPoint scenario (Num f)
  = {| Point.cycle := 550; Point.healthPct := Num 84; Point.capacity := Num 84 |}.
Proof.
  intros Hf. unfold endPoint, mkPoint. cbn [number_map].
  rewrite endSim_health, endSim_fade, totalFadePct_scale, Hf.
  cbn [scenario nominalCapacity dflt].
  replace (Rmax 0 (100 - 16)) with 84 by Rminmax.
  replace (84 / 100 * 100) with 84 by lra.
  rewrite toFixed2_84. f_equal.
  unfold totalCycles. cbn. Rminmax.
Qed.

End Scenario.

(** * The claims *)

(** ** Trend *)

(** C1.  For a profile with [chargeCycles = N >= 0], [buildTrend] returns
    (for any fuel of 22 or more) a non-empty sequence, strictly ascending
    in [cycle], whose first point has [cycle = 0] and [healthPct = 100] and
    whose last point has [cycle = N], whatever the relation of [N] to the
    step, which is [max(25, floor(N / 20))]. *)
Theorem C1_trend_endpoints (payload : Payload) (N : R) (fuel : nat) :
  valid payload -> chargeCycles payload = Some N -> 0 <= N ->
  (22 <= fuel)%nat ->
  exists first rest front lastPoint,
    buildTrend fuel payload = Some (Returned (first :: rest))
    /\ ascending (first :: rest)
    /\ Point.cycle first = 0
    /\ Point.healthPct first = Num 100
    /\ first :: rest = front ++ [lastPoint]
    /\ Point.cycle lastPoint = N
    /\ step payload = Rmax 25 (Math_floor (N / 20)).
Proof.
  intros (n & Hn & _) HN HN0 Hfuel.
  destruct (buildTrend_returns payload fuel Hfuel) as (m & [Hfits _] & Hrun).
  destruct (calibration_number payload n Hn) as (f & Hf & _).
  rewrite Hf in Hrun.
  destruct (trendOf_first payload (Num f) m) as (rest & Hfirst).
  destruct (trendOf_last payload (Num f) m Hfits)
    as (front & lastPoint & Hlast & Hcycle & _).
  pose proof (trendOf_ascending payload (Num f) m) as Hasc.
  assert (Htc : totalCycles payload = N).
  { unfold totalCycles. rewrite HN. cbn. Rminmax. }
  exists (loopPoint payload (Num f) 0), rest, front, lastPoint.
  rewrite <- Hfirst.
  repeat split; try assumption; try congruence.
  - now rewrite loopPoint_0.
  - unfold step. rewrite Htc. unfold or_else.
    pose proof (Math_floor_nonneg (N / 20)).
    destruct (Req_dec_T (Math_floor (N / 20)) 0) as [-> | _]; Rminmax.
Qed.

Lemma C1_trend_endpoints_witness :
  exists first rest front lastPoint,
    buildTrend 22 scenario = Some (Returned (first :: rest))
    /\ ascending (first :: rest)
    /\ Point.cycle first = 0
    /\ Point.healthPct first = Num 100
    /\ first :: rest = front ++ [lastPoint]
    /\ Point.cycle lastPoint = 550
    /\ step scenario = Rmax 25 (Math_floor (550 / 20)).
Proof.
  apply (C1_trend_endpoints scenario 550 22).
  - exists 100. split; [reflexivity | lra].
  - reflexivity.
  - lra.
  - lia.
Defined.

(** C10.  For a valid profile the [healthPct] values of the sequence
    [buildTrend] returns never increase along the sequence, the appended
    end point included. *)
Theorem C10_trend_health_nonincreasing (payload : Payload) (fuel : nat) :
  valid payload -> (22 <= fuel)%nat ->
  exists points values,
    buildTrend fuel payload = Some (Returned points)
    /\ map Point.healthPct points = map Num values
    /\ nonIncreasing values.
Proof.
  intros (n & Hn & _) Hfuel.
  destruct (buildTrend_returns payload fuel Hfuel) as (m & [Hfits _] & Hrun).
  destruct (calibration_number payload n Hn) as (f & Hf & Hbounds & _).
  rewrite Hf in Hrun.
  destruct (trendOf_health payload f m) as (values & Hvalues & Hsorted);
    [lra | assumption |].
  now exists (trendOf payload (Num f) m), values.
Qed.

Lemma C10_trend_health_nonincreasing_witness :
  exists points values,
    buildTrend 22 scenario = Some (Returned points)
    /\ map Point.healthPct points = map Num values
    /\ nonIncreasing values.
Proof.
  apply (C10_trend_health_nonincreasing scenario 22).
  - exists 100. split; [reflexivity | lra].
  - lia.
Defined.

(** C8.  For the documented scenario [computeDegradation] reports an
    observed health of 84, and [buildTrend] returns a sequence that starts
    with [{cycle: 0, healthPct: 100, capacity: 100}] and ends with
    [{cycle: 550, healthPct: 84, capacity: 84}]. *)
Theorem C8_scenario (fuel : nat) :
  (22 <= fuel)%nat ->
  healthPct (computeDegradation scenario 1) = 84
  /\ exists middle,
       buildTrend fuel scenario
       = Some (Returned
           ({| Point.cycle := 0; Point.healthPct := Num 100;
               Point.capacity := Num 100 |}
            :: middle
            ++ [{| Point.cycle := 550; Point.healthPct := Num 84;
                   Point.capacity := Num 84 |}])).
Proof.
  intros Hfuel. split.
  - rewrite (healthPct_measured scenario 1 84) by (reflexivity || lra).
    unfold measuredHealthPct. cbn [scenario nominalCapacity dflt].
    replace (84 / 100 * 100) with 84 by lra. Rminmax.
  - destruct (buildTrend_returns scenario fuel Hfuel) as (m & Hm & Hrun).
    pose proof (scenario_samples m Hm) as ->.
    destruct scenario_calibration as (f & Hf & Hscale).
    rewrite Hf in Hrun. rewrite Hrun.
    unfold trendOf.
    destruct (Rlt_dec (sample scenario 20) (totalCycles scenario)) as [_ | Hge].
    + exists (map (fun j => loopPoint scenario (Num f) (sample scenario j))
                (seq 1 20)).
      change (seq 0 21) with (0%nat :: seq 1 20). cbn [map app].
      rewrite sample_0, loopPoint_0, scenario_endPoint by assumption.
      cbn [scenario nominalCapacity dflt].
      replace (100 / 100 * 100) with 100 by lra. now rewrite toFixed2_100.
    + exfalso. apply Hge. unfold sample, totalCycles. rewrite scenario_step.
      cbn [scenario chargeCycles dflt]. rewrite INR_IZR_INZ. cbn. Rminmax.
Qed.

Lemma C8_scenario_witness :
  healthPct (computeDegradation scenario 1) = 84
  /\ exists middle,
       buildTrend 22 scenario
       = Some (Returned
           ({| Point.cycle := 0; Point.healthPct := Num 100;
               Point.capacity := Num 100 |}
            :: middle
            ++ [{| Point.cycle := 550; Point.healthPct := Num 84;
                   Point.capacity := Num 84 |}])).
Proof. apply (C8_scenario 22). lia. Defined.

(** ** Fade model *)

(** C2, the claim as stated fails: with [nominalCapacity = 0]
    [computeDegradation] raises nothing and returns a full result, with a
    health of 100. *)
Lemma C2_zero_nominal_not_raised :
  nominalCapacity zeroNominal = Some 0
  /\ (forall e, evaluateFade zeroNominal 1 <> Thrown e)
  /\ evaluateFade zeroNominal 1 = Returned (computeDegradation zeroNominal 1)
  /\ healthPct (computeDegradation zeroNominal 1) = 100.
Proof.
  split; [reflexivity|]. split; [discriminate|]. split; [reflexivity|].
  rewrite healthPct_unmeasured by reflexivity.
  rewrite zero_stress_fade.
  - Rminmax.
  - cbn. Rminmax.
  - unfold years. cbn. replace (0 / 12) with 0 by lra. Rminmax.
Qed.

(** C2, amended.  [computeDegradation] never raises, whatever
    [nominalCapacity] is.  The check is made by [analyzeBatteryHealth]:
    with [nominalCapacity] missing, zero or negative it raises before
    anything is computed and returns no result; with [nominalCapacity > 0]
    it returns (for any fuel of 22 or more), and its degradation result is
    that of [computeDegradation]. *)
Theorem C2_invalid_profile_guard (input : Payload) (fuel : nat) :
  (forall f e, evaluateFade input f <> Thrown e)
  /\ ((nominalCapacity input = None
       \/ exists n, nominalCapacity input = Some n /\ n <= 0) ->
      analyzeBatteryHealth fuel input
      = Some (Thrown (Error
          "Battery analysis failed: nominalCapacity must be a positive number")))
  /\ (valid input -> (22 <= fuel)%nat ->
      exists analysis,
        analyzeBatteryHealth fuel input = Some (Returned analysis)
        /\ degradationResult analysis = computeDegradation input 1).
Proof.
  split; [discriminate|]. split.
  - intros Hbad. unfold analyzeBatteryHealth.
    destruct Hbad as [-> | (n & -> & Hn)]; [reflexivity|].
    unfold truthy, js_le.
    destruct (Req_dec_T n 0); [reflexivity|].
    destruct (Rle_dec n 0); [reflexivity | lra].
  - intros (n & Hn & Hpos) Hfuel. unfold analyzeBatteryHealth. rewrite Hn.
    unfold truthy, js_le.
    destruct (Req_dec_T n 0); [lra|]. destruct (Rle_dec n 0); [lra|].
    cbn [negb orb evaluateFade].
    destruct (buildTrend_returns input fuel Hfuel) as (m & _ & ->).
    eexists. split; reflexivity.
Qed.

Lemma C2_invalid_profile_guard_witness :
  exists analysis,
    analyzeBatteryHealth 22 scenario = Some (Returned analysis)
    /\ degradationResult analysis = computeDegradation scenario 1.
Proof.
  apply (C2_invalid_profile_guard scenario 22).
  - exists 100. split; [reflexivity | lra].
  - lia.
Defined.

(** C3, the claim as stated fails: for one cycle at full depth of
    discharge and a charge rate of 1.25 the formula gives a cycle fade of
    1.6875 percent, and [computeDegradation] reports 1.69. *)
Lemma C3_reported_fade_is_rounded :
  spec_cycleFadeFraction oneFastCycle 1 * 100 = 1.6875
  /\ cycleFadePct (components (computeDegradation oneFastCycle 1)) = 1.69
  /\ cycleFadePct (components (computeDegradation oneFastCycle 1))
     <> spec_cycleFadeFraction oneFastCycle 1 * 100.
Proof.
  assert (Hspec : spec_cycleFadeFraction oneFastCycle 1 * 100 = 1.6875).
  { unfold spec_cycleFadeFraction. cbn [oneFastCycle dodPct chargeCycles cRate dflt].
    replace (100 / 100) with 1 by lra. rewrite Math_pow_1.
    replace (Rmax 1 0) with 1 by Rminmax. rewrite sqrt_1.
    replace (Rmax 0 (1.25 - 1)) with 0.25 by Rminmax. lra. }
  assert (Hcode : cycleFadePct (components (computeDegradation oneFastCycle 1)) = 1.69).
  { cbn [computeDegradation components cycleFadePct].
    replace (cycleFadeFraction oneFastCycle 1 * 100) with 1.6875.
    - unfold toFixed2. destruct (Rlt_dec 1.6875 0); [lra|].
      replace (1.6875 * 100 + / 2) with (IZR 169 + 0.25) by lra.
      rewrite Math_floor_IZR_frac; lra.
    - rewrite <- Hspec. unfold cycleFadeFraction, spec_cycleFadeFraction,
        k_c_base, DoD_factor, alpha. rewrite cRateAccel_spec.
      cbn [oneFastCycle dodPct dflt]. replace (Rmax 100 0) with 100 by Rminmax.
      ring. }
  rewrite Hspec, Hcode. repeat split. lra.
Qed.

(** C3, amended.  For every profile and calibration factor [f] the cycle
    fade fraction is
    [0.015 f (max(dodPct, 0) / 100)^0.6 sqrt(max(chargeCycles, 0))
     (1 + max(0, cRate - 1) 0.5)], which is the stated formula when
    [dodPct >= 0]; the calendar fade fraction is the stated one; the two
    reported percentages are these fractions times 100 rounded to two
    decimals; [modelHealthPct] is [max(0, 100 -] the sum of the unrounded
    percentages[)]; and with no cycles and no elapsed time the total fade
    is 0 and [modelHealthPct] is 100. *)
Theorem C3_fade_formulas (payload : Payload) (f : R) :
  cycleFadeFraction payload f
  = 0.015 * f
    * Math_pow (Rmax (dflt 80 (dodPct payload)) 0 / 100) 0.6
    * sqrt (Rmax (dflt 0 (chargeCycles payload)) 0)
    * (1 + Rmax 0 (dflt 0.8 (cRate payload) - 1) * 0.5)
  /\ (0 <= dflt 80 (dodPct payload) ->
      cycleFadeFraction payload f = spec_cycleFadeFraction payload f)
  /\ calendarFadeFraction payload f = spec_calendarFadeFraction payload f
  /\ cycleFadePct (components (computeDegradation payload f))
     = toFixed2 (cycleFadeFraction payload f * 100)
  /\ calendarFadePct (components (computeDegradation payload f))
     = toFixed2 (calendarFadeFraction payload f * 100)
  /\ modelHealthPct (computeDegradation payload f)
     = Rmax 0 (100 - (cycleFadeFraction payload f * 100
                      + calendarFadeFraction payload f * 100))
  /\ (Rmax (dflt 0 (chargeCycles payload)) 0 = 0 -> years payload = 0 ->
      totalFadePct payload f = 0
      /\ modelHealthPct (computeDegradation payload f) = 100).
Proof.
  assert (Hcycle : cycleFadeFraction payload f
            = 0.015 * f
              * Math_pow (Rmax (dflt 80 (dodPct payload)) 0 / 100) 0.6
              * sqrt (Rmax (dflt 0 (chargeCycles payload)) 0)
              * (1 + Rmax 0 (dflt 0.8 (cRate payload) - 1) * 0.5)).
  { unfold cycleFadeFraction, k_c_base, DoD_factor, alpha.
    now rewrite cRateAccel_spec. }
  split; [exact Hcycle|]. split; [|split; [|split; [|split; [|split]]]].
  - intros Hdod. rewrite Hcycle. unfold spec_cycleFadeFraction.
    now replace (Rmax (dflt 80 (dodPct payload)) 0)
      with (dflt 80 (dodPct payload)) by Rminmax.
  - unfold calendarFadeFraction, spec_calendarFadeFraction, k_t_base,
      arrhenius, Ea, R_gas, beta.
    destruct (Rlt_dec 0 (years payload)); reflexivity.
  - reflexivity.
  - reflexivity.
  - rewrite modelHealthPct_eq. unfold totalFadePct. f_equal. ring.
  - intros Hc Hy. rewrite modelHealthPct_eq, zero_stress_fade by assumption.
    split; [reflexivity | Rminmax].
Qed.

Lemma C3_fade_formulas_witness :
  totalFadePct emptyPayload 1 = 0
  /\ modelHealthPct (computeDegradation emptyPayload 1) = 100.
Proof.
  apply (C3_fade_formulas emptyPayload 1).
  - cbn. unfold Rmax. destruct (Rle_dec 0 0); reflexivity.
  - unfold years. cbn. unfold Rmax. destruct (Rle_dec (0 / 12) 0); [reflexivity | lra].
Defined.

(** C4.  The code misses the claim on a measured capacity of 0.  On
    [{nominalCapacity: 100, currentCapacity: 0}] the measurement is
    supplied and its clamped ratio is 0, and [computeDegradation] reports
    the model health, 100: the test [currentCapacity ? ... : ...] takes
    the number 0 for an absent measurement, against the header of the
    source ("if provided, overrides model for health"). *)
Lemma C4_zero_measurement_ignored :
  currentCapacity deadBattery = Some 0
  /\ nominalCapacity deadBattery = Some 100
  /\ measuredHealthPct 0 100 = 0
  /\ healthPct (computeDegradation deadBattery 1) = 100
  /\ healthPct (computeDegradation deadBattery 1) <> measuredHealthPct 0 100.
Proof.
  assert (Hratio : measuredHealthPct 0 100 = 0).
  { unfold measuredHealthPct. replace (0 / 100 * 100) with 0 by lra. Rminmax. }
  assert (Hcode : healthPct (computeDegradation deadBattery 1) = 100).
  { rewrite healthPct_unmeasured
      by (apply truthy_false; right; reflexivity).
    rewrite zero_stress_fade.
    - Rminmax.
    - cbn. Rminmax.
    - unfold years. cbn. replace (0 / 12) with 0 by lra. Rminmax. }
  rewrite Hratio, Hcode. repeat split. lra.
Qed.

(** Away from a measured 0 the observed health is what C4 says: the model
    health when [currentCapacity] is absent, and
    [clamp(currentCapacity / nominalCapacity * 100, 0, 100)] when it is
    supplied and not 0. *)
Lemma observed_health_cases (payload : Payload) (n f : R) :
  nominalCapacity payload = Some n -> 0 < n ->
  (currentCapacity payload = None ->
   healthPct (computeDegradation payload f)
   = modelHealthPct (computeDegradation payload f))
  /\ (forall c, currentCapacity payload = Some c -> c <> 0 ->
      healthPct (computeDegradation payload f) = measuredHealthPct c n).
Proof.
  intros Hn Hpos. split.
  - intros Habsent.
    assert (Ht : truthy (currentCapacity payload) = false)
      by (apply truthy_false; now left).
    now rewrite healthPct_unmeasured, modelHealthPct_eq.
  - intros c Hc Hc0. rewrite (healthPct_measured payload f c Hc Hc0).
    now rewrite Hn.
Qed.

Lemma observed_health_cases_example :
  healthPct (computeDegradation scenario 1) = measuredHealthPct 84 100.
Proof.
  apply (observed_health_cases scenario 100 1).
  - reflexivity.
  - lra.
  - reflexivity.
  - lra.
Qed.

(** ** Calibration *)

(** C5.  For a valid profile [calculateCalibrationFactor] returns a number
    of the closed interval [[0.1, 3.0]]; when the model's fade is under
    0.1 the quotient is not formed and the result is 1. *)
Theorem C5_calibration_bounded (payload : Payload) :
  valid payload ->
  exists f,
    calculateCalibrationFactor payload = Num f
    /\ 0.1 <= f <= 3.0
    /\ (100 - modelHealthPct (computeDegradation payload 1) < 0.1 -> f = 1.0).
Proof.
  intros (n & Hn & _).
  destruct (calibration_number payload n Hn) as (f & Hf & Hb & Hsmall).
  exists f. repeat split; try assumption; lra.
Qed.

Lemma C5_calibration_bounded_witness :
  exists f,
    calculateCalibrationFactor scenario = Num f
    /\ 0.1 <= f <= 3.0
    /\ (100 - modelHealthPct (computeDegradation scenario 1) < 0.1 -> f = 1.0).
Proof.
  apply (C5_calibration_bounded scenario).
  exists 100. split; [reflexivity | lra].
Defined.

(** C6.  When [currentCapacity] is absent or [chargeCycles < 50],
    [calculateCalibrationFactor] returns exactly 1. *)
Theorem C6_calibration_noop (payload : Payload) :
  currentCapacity payload = None
  \/ (exists c, chargeCycles payload = Some c /\ c < 50) ->
  calculateCalibrationFactor payload = Num 1.0.
Proof.
  intros H. replace 1.0 with 1 by lra. apply calibration_noop.
  destruct H as [-> | H]; [now left | right; now apply js_lt_true].
Qed.

Lemma C6_calibration_noop_witness :
  calculateCalibrationFactor emptyPayload = Num 1.0.
Proof. apply (C6_calibration_noop emptyPayload). left. reflexivity. Defined.

(** C9.  A supplied [currentCapacity] of exactly 0 is treated as an absent
    measurement: the three functions give what they give on the payload
    without it, so the calibration factor is 1, the observed health is the
    model health, and the confidence is low, whatever [chargeCycles]. *)
Theorem C9_zero_measurement_is_absent (payload : Payload) :
  currentCapacity payload = Some 0 ->
  calculateCalibrationFactor payload = Num 1
  /\ (forall f, healthPct (computeDegradation payload f)
                = modelHealthPct (computeDegradation payload f))
  /\ level (getModelConfidence payload) = low
  /\ calculateCalibrationFactor payload
     = calculateCalibrationFactor (withoutMeasurement payload)
  /\ (forall f, computeDegradation payload f
                = computeDegradation (withoutMeasurement payload) f)
  /\ getModelConfidence payload = getModelConfidence (withoutMeasurement payload).
Proof.
  intros Hzero.
  assert (Ht : truthy (currentCapacity payload) = false)
    by (apply truthy_false; now right).
  repeat split.
  - apply calibration_noop. now left.
  - intros f. now rewrite healthPct_unmeasured, modelHealthPct_eq.
  - unfold getModelConfidence. now rewrite Ht.
  - rewrite !calibration_noop; auto.
  - intros f. unfold computeDegradation. rewrite Ht. reflexivity.
  - unfold getModelConfidence. rewrite Ht. reflexivity.
Qed.

Lemma C9_zero_measurement_is_absent_witness :
  calculateCalibrationFactor zeroMeasurement = Num 1
  /\ (forall f, healthPct (computeDegradation zeroMeasurement f)
                = modelHealthPct (computeDegradation zeroMeasurement f))
  /\ level (getModelConfidence zeroMeasurement) = low
  /\ calculateCalibrationFactor zeroMeasurement
     = calculateCalibrationFactor (withoutMeasurement zeroMeasurement)
  /\ (forall f, computeDegradation zeroMeasurement f
                = computeDegradation (withoutMeasurement zeroMeasurement) f)
  /\ getModelConfidence zeroMeasurement
     = getModelConfidence (withoutMeasurement zeroMeasurement).
Proof. apply (C9_zero_measurement_is_absent zeroMeasurement). reflexivity. Defined.

(** ** Confidence *)


(** Away from a measured 0 the mapping is what C7 says.  The answer is
    low, ±6 months, when [currentCapacity] is absent or [chargeCycles] is
    under 50.  With a measurement that is not 0 and at least 50 cycles,
    and [f] the calibration factor of the profile: high, ±2 months, for
    [f] in [[0.8, 1.2]]; medium, ±4 months, for [f] in [[0.5, 2.0]] and
    not in [[0.8, 1.2]]; low, ±6 months, otherwise.  So [f = 1.0] gives
    high and [f = 0.3] gives low. *)
Lemma confidence_mapping_cases (payload : Payload) :
  ((currentCapacity payload = None
    \/ exists c, chargeCycles payload = Some c /\ c < 50) ->
   level (getModelConfidence payload) = low
   /\ accuracy (getModelConfidence payload) = "±6 months"%string)
  /\ (forall m c f,
        currentCapacity payload = Some m -> m <> 0 ->
        chargeCycles payload = Some c -> 50 <= c ->
        calculateCalibrationFactor payload = Num f ->
        (0.8 <= f <= 1.2 ->
         level (getModelConfidence payload) = high
         /\ accuracy (getModelConfidence payload) = "±2 months"%string)
        /\ (0.5 <= f <= 2.0 -> ~ 0.8 <= f <= 1.2 ->
            level (getModelConfidence payload) = medium
            /\ accuracy (getModelConfidence payload) = "±4 months"%string)
        /\ (~ 0.5 <= f <= 2.0 ->
            level (getModelConfidence payload) = low
            /\ accuracy (getModelConfidence payload) = "±6 months"%string)
        /\ (f = 1.0 -> level (getModelConfidence payload) = high)
        /\ (f = 0.3 -> level (getModelConfidence payload) = low)).
Proof.
  split.
  - intros Hguard. unfold getModelConfidence.
    assert (Hb : (negb (truthy (currentCapacity payload))
                  || js_lt (chargeCycles payload) 50)%bool = true).
    { destruct Hguard as [H | H].
      - rewrite (proj2 (truthy_false _)); auto.
      - rewrite (proj2 (js_lt_true _ _) H). apply orb_true_r. }
    rewrite Hb. split; reflexivity.
  - intros m c f Hm Hm0 Hc Hc50 Hf. unfold getModelConfidence.
    assert (Ht : truthy (currentCapacity payload) = true)
      by (apply truthy_true; eauto).
    rewrite Ht, Hc, js_lt_false_Some, Hf by assumption.
    cbn [negb orb]. unfold num_ge, num_le.
    repeat split; intros; case_R; cbn; try reflexivity; lra.
Qed.

Lemma idleBattery_calibration : calculateCalibrationFactor idleBattery = Num 1.
Proof.
  unfold calculateCalibrationFactor.
  assert (Ht : truthy (currentCapacity idleBattery) = true).
  { apply truthy_true. exists 84. split; [reflexivity | lra]. }
  assert (Hc : js_lt (chargeCycles idleBattery) 50 = false)
    by (apply js_lt_false_Some; lra).
  rewrite Ht, Hc. cbn [negb orb]. cbv zeta. rewrite modelHealthPct_eq.
  assert (HF : totalFadePct idleBattery 1 = 0).
  { unfold totalFadePct, cycleFadeFraction, calendarFadeFraction, DoD_factor,
      Math_pow, years.
    cbn [idleBattery dodPct calendarAgeYears calendarAgeMonths dflt].
    replace (Rmax 0 0 / 100) with 0 by Rminmax.
    replace (Rmax (0 / 12) 0) with 0 by Rminmax.
    destruct (Req_dec_T 0 0); [|lra]. destruct (Rlt_dec 0 0); [lra | ring]. }
  rewrite HF. replace (100 - Rmax 0 (100 - 0)) with 0 by Rminmax.
  destruct (Rlt_dec 0 0.1); [reflexivity | lra].
Qed.

Lemma confidence_mapping_cases_example :
  (level (getModelConfidence emptyPayload) = low
   /\ accuracy (getModelConfidence emptyPayload) = "±6 months"%string)
  /\ level (getModelConfidence idleBattery) = high.
Proof.
  split.
  - apply (confidence_mapping_cases emptyPayload).
    left. reflexivity.
  - apply (proj2 (confidence_mapping_cases idleBattery) 84 50 1).
    + reflexivity.
    + lra.
    + reflexivity.
    + lra.
    + exact idleBattery_calibration.
    + lra.
Qed.

(** With [chargeCycles] absent the comparison [chargeCycles < 50] is false,
    so a measured battery that was never given a cycle count is not
    answered low: on [{nominalCapacity: 100, currentCapacity: 50}] the
    model predicts no fade, the factor stays 1 and the answer is high.
    The request schema defaults [chargeCycles] to 0, so a validated body
    does not reach this. *)
Lemma confidence_without_cycles :
  chargeCycles wornBattery = None
  /\ calculateCalibrationFactor wornBattery = Num 1
  /\ level (getModelConfidence wornBattery) = high.
Proof.
  assert (Ht : truthy (currentCapacity wornBattery) = true).
  { apply truthy_true. exists 50. split; [reflexivity | lra]. }
  assert (Hcf : calculateCalibrationFactor wornBattery = Num 1).
  { unfold calculateCalibrationFactor. rewrite Ht.
    cbn [wornBattery chargeCycles js_lt negb orb]. cbv zeta.
    rewrite modelHealthPct_eq, zero_stress_fade.
    - replace (100 - Rmax 0 (100 - 0)) with 0 by Rminmax.
      destruct (Rlt_dec 0 0.1); [reflexivity | lra].
    - cbn. Rminmax.
    - unfold years. cbn. replace (0 / 12) with 0 by lra. Rminmax. }
  split; [reflexivity|]. split; [exact Hcf|].
  unfold getModelConfidence. rewrite Ht, Hcf.
  cbn [wornBattery chargeCycles js_lt negb orb]. unfold num_ge, num_le.
  case_R; cbn; try reflexivity; lra.
Qed.

(** * Further properties of the engine *)

(** ** Ranges of a degradation result *)

Lemma Math_round_bounds (lo hi : Z) (r : R) :
  IZR lo <= r <= IZR hi -> IZR lo <= Math_round r <= IZR hi.
Proof.
  intros [Hlo Hhi]. unfold Math_round. split.
  - rewrite <- (Math_floor_IZR_frac lo (/ 2)) by lra.
    apply Math_floor_mono. lra.
  - rewrite <- (Math_floor_IZR_frac hi (/ 2)) by lra.
    apply Math_floor_mono. lra.
Qed.

Lemma health_range (payload : Payload) (f : R) :
  0 <= f -> 0 <= healthPct (computeDegradation payload f) <= 100.
Proof.
  intros Hf. pose proof (totalFadePct_nonneg payload f Hf) as HF.
  unfold computeDegradation. cbn [healthPct].
  destruct (truthy (currentCapacity payload)); Rminmax.
Qed.

(** X1.  For a nonnegative calibration factor the model health and the
    reported health lie in [[0, 100]], and the state of health is the
    reported health. *)
Theorem X1_health_bounds (payload : Payload) (f : R) :
  0 <= f ->
  0 <= modelHealthPct (computeDegradation payload f) <= 100
  /\ 0 <= healthPct (computeDegradation payload f) <= 100
  /\ soh (computeDegradation payload f) = healthPct (computeDegradation payload f).
Proof.
  intros Hf. pose proof (totalFadePct_nonneg payload f Hf) as HF.
  assert (Hmodel : 0 <= Rmax 0 (100 - totalFadePct payload f) <= 100) by Rminmax.
  split; [exact Hmodel|]. split; [|reflexivity].
  now apply health_range.
Qed.

Lemma X1_health_bounds_witness :
  0 <= modelHealthPct (computeDegradation scenario 1) <= 100
  /\ 0 <= healthPct (computeDegradation scenario 1) <= 100
  /\ soh (computeDegradation scenario 1) = healthPct (computeDegradation scenario 1).
Proof. apply (X1_health_bounds scenario 1). lra. Defined.

Lemma remaining_life_facts (payload : Payload) (f : R) :
  0 <= f ->
  0 <= estimatedRUIMonths (computeDegradation payload f) <= 600
  /\ (healthPct (computeDegradation payload f) <= 70 ->
      estimatedRUIMonths (computeDegradation payload f) = 0)
  /\ (healthPct (computeDegradation payload f) = 100 ->
      estimatedRUIMonths (computeDegradation payload f) = 600).
Proof.
  intros Hf. destruct (health_range payload f Hf) as [Hlo Hhi].
  unfold computeDegradation in *. cbn [healthPct estimatedRUIMonths] in *.
  set (h := if truthy (currentCapacity payload) then _ else _) in *.
  set (rate := Rmax ((100 - h) / _) 0.05).
  assert (Hrate : 0.05 <= rate) by (unfold rate; Rminmax).
  assert (Hinv : 0 < / rate <= 20).
  { split; [apply Rinv_0_lt_compat; lra|].
    replace 20 with (/ 0.05) by lra. apply Rinv_le_contravar; lra. }
  assert (Hq : (h - 70) / rate <= 600) by (unfold Rdiv; nra).
  split; [|split].
  - apply (Math_round_bounds 0 600). Rminmax.
  - intros Hlow.
    assert (Hneg : (h - 70) / rate <= 0) by (unfold Rdiv; nra).
    replace (Rmax 0 ((h - 70) / rate)) with 0 by Rminmax.
    unfold Math_round. replace (0 + / 2) with (IZR 0 + / 2) by lra.
    rewrite Math_floor_IZR_frac; lra.
  - intros Hfull. unfold rate. rewrite Hfull.
    replace ((100 - 100) / _) with 0 by (unfold Rdiv; ring).
    replace (Rmax 0 0.05) with 0.05 by Rminmax.
    replace ((100 - 70) / 0.05) with 600 by lra.
    replace (Rmax 0 600) with 600 by Rminmax.
    unfold Math_round. replace (600 + / 2) with (IZR 600 + / 2) by lra.
    rewrite Math_floor_IZR_frac; lra.
Qed.

(** X2.  For a nonnegative calibration factor the remaining-life estimate
    is between 0 and 600 months; it is 0 when the reported health is at
    or below the end-of-life threshold of 70, and 600 when the reported
    health is 100. *)
Theorem X2_remaining_life_bounds (payload : Payload) (f : R) :
  0 <= f ->
  0 <= estimatedRUIMonths (computeDegradation payload f) <= 600
  /\ (healthPct (computeDegradation payload f) <= 70 ->
      estimatedRUIMonths (computeDegradation payload f) = 0)
  /\ (healthPct (computeDegradation payload f) = 100 ->
      estimatedRUIMonths (computeDegradation payload f) = 600).
Proof. exact (remaining_life_facts payload f). Qed.

Lemma X2_remaining_life_bounds_witness :
  0 <= estimatedRUIMonths (computeDegradation scenario 1) <= 600
  /\ (healthPct (computeDegradation scenario 1) <= 70 ->
      estimatedRUIMonths (computeDegradation scenario 1) = 0)
  /\ (healthPct (computeDegradation scenario 1) = 100 ->
      estimatedRUIMonths (computeDegradation scenario 1) = 600).
Proof. apply (X2_remaining_life_bounds scenario 1). lra. Defined.

(** ** Monotonicity in the stress factors *)

Lemma Rmult_le_mono_nonneg (a b c d : R) :
  0 <= a <= b -> 0 <= c <= d -> 0 <= a * c <= b * d.
Proof.
  intros Hab Hcd. split; [apply Rmult_le_pos | apply Rmult_le_compat]; lra.
Qed.

Lemma cRateAccel_mono (p q : Payload) :
  dflt 0.8 (cRate p) <= dflt 0.8 (cRate q) -> cRateAccel p <= cRateAccel q.
Proof. intros H. unfold cRateAccel. case_R; lra. Qed.

Lemma DoD_factor_mono (p q : Payload) :
  dflt 80 (dodPct p) <= dflt 80 (dodPct q) -> DoD_factor p <= DoD_factor q.
Proof.
  intros H. unfold DoD_factor, alpha. apply Math_pow_mono; Rminmax.
Qed.

Lemma cycleFadeFraction_mono (p q : Payload) (f : R) :
  0 <= f ->
  dflt 0 (chargeCycles p) <= dflt 0 (chargeCycles q) ->
  dflt 80 (dodPct p) <= dflt 80 (dodPct q) ->
  dflt 0.8 (cRate p) <= dflt 0.8 (cRate q) ->
  cycleFadeFraction p f <= cycleFadeFraction q f.
Proof.
  intros Hf Hc Hd Hr.
  unfold cycleFadeFraction, k_c_base.
  pose proof (DoD_factor_nonneg p). pose proof (DoD_factor_mono p q Hd).
  pose proof (cRateAccel_ge_1 p). pose proof (cRateAccel_mono p q Hr).
  pose proof (sqrt_pos (Rmax (dflt 0 (chargeCycles p)) 0)).
  assert (sqrt (Rmax (dflt 0 (chargeCycles p)) 0)
          <= sqrt (Rmax (dflt 0 (chargeCycles q)) 0))
    by (apply sqrt_le_1_alt; Rminmax).
  assert (0 <= 0.015 * f <= 0.015 * f) by lra.
  apply Rmult_le_mono_nonneg; [|lra].
  apply Rmult_le_mono_nonneg; [|lra].
  apply Rmult_le_mono_nonneg; lra.
Qed.

(** X3.  For a nonnegative calibration factor, a payload with at least as
    many cycles, at least as deep a discharge and at least as high a
    charge rate has at least as much cycle fade, unrounded and as
    reported. *)
Theorem X3_cycle_fade_monotone (p q : Payload) (f : R) :
  0 <= f ->
  dflt 0 (chargeCycles p) <= dflt 0 (chargeCycles q) ->
  dflt 80 (dodPct p) <= dflt 80 (dodPct q) ->
  dflt 0.8 (cRate p) <= dflt 0.8 (cRate q) ->
  cycleFadeFraction p f <= cycleFadeFraction q f
  /\ cycleFadePct (components (computeDegradation p f))
     <= cycleFadePct (components (computeDegradation q f)).
Proof.
  intros Hf Hc Hd Hr.
  pose proof (cycleFadeFraction_mono p q f Hf Hc Hd Hr) as Hfade.
  split; [exact Hfade|].
  cbn [computeDegradation components cycleFadePct].
  pose proof (cycleFadeFraction_nonneg p f Hf).
  apply toFixed2_mono; lra.
Qed.

Lemma X3_cycle_fade_monotone_witness :
  cycleFadeFraction youngBattery 1 <= cycleFadeFraction zeroMeasurement 1
  /\ cycleFadePct (components (computeDegradation youngBattery 1))
     <= cycleFadePct (components (computeDegradation zeroMeasurement 1)).
Proof.
  apply (X3_cycle_fade_monotone youngBattery zeroMeasurement 1);
    cbn [youngBattery zeroMeasurement chargeCycles dodPct cRate dflt]; lra.
Defined.

Lemma arrhenius_mono (T1 T2 : R) :
  0 < T1 -> T1 <= T2 -> arrhenius T1 Ea <= arrhenius T2 Ea.
Proof.
  intros H1 H12. unfold arrhenius, Ea, R_gas. apply exp_le.
  assert (Hinv : / (8.314 * T2) <= / (8.314 * T1))
    by (apply Rinv_le_contravar; nra).
  unfold Rdiv. nra.
Qed.

Lemma calendarFadeFraction_mono (p q : Payload) (f : R) :
  0 <= f ->
  -273.15 < dflt 25 (avgTemperature p) ->
  dflt 25 (avgTemperature p) <= dflt 25 (avgTemperature q) ->
  years p <= years q ->
  calendarFadeFraction p f <= calendarFadeFraction q f.
Proof.
  intros Hf HT HTq Hy.
  pose proof (calendarFadeFraction_nonneg q f Hf) as Hq.
  unfold calendarFadeFraction in *. cbv zeta in *.
  destruct (Rlt_dec 0 (years p)) as [Hp | Hp]; [|assumption].
  destruct (Rlt_dec 0 (years q)) as [_ | Hn]; [|lra].
  pose proof (arrhenius_pos (dflt 25 (avgTemperature p) + 273.15) Ea).
  pose proof (arrhenius_mono (dflt 25 (avgTemperature p) + 273.15)
                (dflt 25 (avgTemperature q) + 273.15)).
  pose proof (Math_pow_nonneg (years p) beta).
  assert (Math_pow (years p) beta <= Math_pow (years q) beta)
    by (apply Math_pow_mono; unfold beta; lra).
  unfold k_t_base.
  assert (0 <= 0.01 * f <= 0.01 * f) by lra.
  apply Rmult_le_mono_nonneg; [|lra].
  apply Rmult_le_mono_nonneg; [lra|].
  split; [lra | apply H0; lra].
Qed.

(** X4.  For a nonnegative calibration factor and temperatures above
    absolute zero, a payload at least as warm and at least as old has at
    least as much calendar fade, unrounded and as reported. *)
Theorem X4_calendar_fade_monotone (p q : Payload) (f : R) :
  0 <= f ->
  -273.15 < dflt 25 (avgTemperature p) ->
  dflt 25 (avgTemperature p) <= dflt 25 (avgTemperature q) ->
  years p <= years q ->
  calendarFadeFraction p f <= calendarFadeFraction q f
  /\ calendarFadePct (components (computeDegradation p f))
     <= calendarFadePct (components (computeDegradation q f)).
Proof.
  intros Hf HT HTq Hy.
  pose proof (calendarFadeFraction_mono p q f Hf HT HTq Hy) as Hfade.
  split; [exact Hfade|].
  cbn [computeDegradation components calendarFadePct].
  pose proof (calendarFadeFraction_nonneg p f Hf).
  apply toFixed2_mono; lra.
Qed.

Lemma X4_calendar_fade_monotone_witness :
  calendarFadeFraction emptyPayload 1 <= calendarFadeFraction shelfBattery 1
  /\ calendarFadePct (components (computeDegradation emptyPayload 1))
     <= calendarFadePct (components (computeDegradation shelfBattery 1)).
Proof.
  apply (X4_calendar_fade_monotone emptyPayload shelfBattery 1).
  - lra.
  - cbn. lra.
  - cbn. lra.
  - unfold years. cbn. unfold Rmax.
    destruct (Rle_dec (0 / 12) 0), (Rle_dec 10 0); lra.
Defined.

(** ** Calibration against a measurement *)

(** The calibration factor when both guards are passed and
    [nominalCapacity] is present. *)
Lemma calibration_measured (payload : Payload) (n c k : R) :
  nominalCapacity payload = Some n ->
  currentCapacity payload = Some c -> c <> 0 ->
  chargeCycles payload = Some k -> 50 <= k ->
  0.1 <= 100 - modelHealthPct (computeDegradation payload 1) ->
  calculateCalibrationFactor payload
  = Num (Rmax 0.1 (Rmin 3
           ((100 - c / n * 100)
            / (100 - modelHealthPct (computeDegradation payload 1))))).
Proof.
  intros Hn Hc Hc0 Hk Hk50 HF. unfold calculateCalibrationFactor.
  assert (Ht : truthy (currentCapacity payload) = true)
    by (apply truthy_true; eauto).
  rewrite Ht, Hk, js_lt_false_Some, Hn, Hc by assumption.
  cbn [negb orb dflt number_map]. cbv zeta.
  destruct (Rlt_dec _ 0.1); [lra | reflexivity].
Qed.

(** The unclamped calibration factor and the fade it gives. *)
Lemma calibration_unclamped (payload : Payload) (n c k : R) :
  nominalCapacity payload = Some n -> 0 < n ->
  currentCapacity payload = Some c -> c <> 0 ->
  chargeCycles payload = Some k -> 50 <= k ->
  0.1 <= totalFadePct payload 1 <= 100 ->
  0.1 * totalFadePct payload 1 <= 100 - c / n * 100
    <= 3 * totalFadePct payload 1 ->
  exists f,
    calculateCalibrationFactor payload = Num f
    /\ totalFadePct payload f = 100 - c / n * 100
    /\ Rmax 0 (100 - totalFadePct payload f) = measuredHealthPct c n.
Proof.
  intros Hn Hpos Hc Hc0 Hk Hk50 HF HA.
  assert (Hmodel : 100 - modelHealthPct (computeDegradation payload 1)
                   = totalFadePct payload 1)
    by (rewrite modelHealthPct_eq; Rminmax).
  rewrite (calibration_measured payload n c k) by (assumption || lra).
  rewrite Hmodel.
  set (F := totalFadePct payload 1) in *. set (A := 100 - c / n * 100) in *.
  assert (Hq : A / F * F = A) by (field; lra).
  assert (Hb : 0.1 <= A / F <= 3) by (clearbody F A; split; nra).
  exists (A / F). split.
  - f_equal. clearbody F A. Rminmax.
  - assert (Hfade : totalFadePct payload (A / F) = A)
      by (rewrite totalFadePct_scale; exact Hq).
    split; [exact Hfade|]. rewrite Hfade.
    unfold measuredHealthPct, A in *. clearbody F. Rminmax.
Qed.

(** X5.  When the measurement is usable (nonzero, at least 50 cycles), the
    uncalibrated model fade [F] lies in [[0.1, 100]] and the measured fade
    lies in [[0.1 F, 3 F]], the calibration factor is not clamped, and the
    model evaluated with it reproduces the measurement: its total fade is
    the measured fade and its model health is the reported health. *)
Theorem X5_calibration_reproduces_measurement (payload : Payload) (n c k : R) :
  nominalCapacity payload = Some n -> 0 < n ->
  currentCapacity payload = Some c -> c <> 0 ->
  chargeCycles payload = Some k -> 50 <= k ->
  0.1 <= totalFadePct payload 1 <= 100 ->
  0.1 * totalFadePct payload 1 <= 100 - c / n * 100
    <= 3 * totalFadePct payload 1 ->
  exists f,
    calculateCalibrationFactor payload = Num f
    /\ totalFadePct payload f = 100 - c / n * 100
    /\ modelHealthPct (computeDegradation payload f)
       = healthPct (computeDegradation payload f).
Proof.
  intros Hn Hpos Hc Hc0 Hk Hk50 HF HA.
  destruct (calibration_unclamped payload n c k) as (f & Hf & Hfade & Hhealth);
    try assumption.
  exists f. split; [exact Hf|]. split; [exact Hfade|].
  rewrite modelHealthPct_eq, Hhealth, (healthPct_measured payload _ c Hc Hc0), Hn.
  reflexivity.
Qed.

Lemma X5_calibration_reproduces_measurement_witness :
  exists f,
    calculateCalibrationFactor scenario = Num f
    /\ totalFadePct scenario f = 100 - 84 / 100 * 100
    /\ modelHealthPct (computeDegradation scenario f)
       = healthPct (computeDegradation scenario f).
Proof.
  apply (X5_calibration_reproduces_measurement scenario 100 84 550).
  - reflexivity.
  - lra.
  - reflexivity.
  - lra.
  - reflexivity.
  - lra.
  - pose proof scenario_fade_bounds. lra.
  - pose proof scenario_fade_bounds. lra.
Defined.

(** X6.  A usable measurement at or above the nominal capacity, against a
    model that predicts a fade of at least 0.1, drives the calibration
    factor to its lower bound 0.1, and the confidence is low. *)
Theorem X6_no_measured_fade_is_low_confidence (payload : Payload) (n c k : R) :
  nominalCapacity payload = Some n -> 0 < n ->
  currentCapacity payload = Some c -> n <= c ->
  chargeCycles payload = Some k -> 50 <= k ->
  0.1 <= 100 - modelHealthPct (computeDegradation payload 1) ->
  calculateCalibrationFactor payload = Num 0.1
  /\ level (getModelConfidence payload) = low.
Proof.
  intros Hn Hpos Hc Hnc Hk Hk50 HF.
  assert (Hc0 : c <> 0) by lra.
  assert (Hcf : calculateCalibrationFactor payload = Num 0.1).
  { rewrite (calibration_measured payload n c k) by assumption. f_equal.
    set (F := 100 - modelHealthPct _) in *. clearbody F.
    assert (Hr : 100 <= c / n * 100).
    { assert (1 <= c / n); [|lra]. unfold Rdiv.
      replace 1 with (n * / n) by (field; lra).
      apply Rmult_le_compat_r; [|assumption].
      left. apply Rinv_0_lt_compat. lra. }
    assert (Hq : (100 - c / n * 100) / F <= 0).
    { assert (0 < / F) by (apply Rinv_0_lt_compat; lra). unfold Rdiv. nra. }
    Rminmax. }
  split; [exact Hcf|].
  unfold getModelConfidence.
  assert (Ht : truthy (currentCapacity payload) = true)
    by (apply truthy_true; eauto).
  rewrite Ht, Hk, js_lt_false_Some, Hcf by assumption.
  cbn [negb orb]. unfold num_ge, num_le. case_R; cbn; try reflexivity; lra.
Qed.

Lemma X6_no_measured_fade_is_low_confidence_witness :
  calculateCalibrationFactor fullCapacity = Num 0.1
  /\ level (getModelConfidence fullCapacity) = low.
Proof.
  apply (X6_no_measured_fade_is_low_confidence fullCapacity 100 100 550).
  - reflexivity.
  - lra.
  - reflexivity.
  - lra.
  - reflexivity.
  - lra.
  - pose proof scenario_fade_bounds as HF.
    change (totalFadePct scenario 1) with (totalFadePct fullCapacity 1) in HF.
    rewrite modelHealthPct_eq.
    unfold Rmax. destruct (Rle_dec 0 (100 - totalFadePct fullCapacity 1)); lra.
Defined.

(** ** Size and ranges of a trend *)

Lemma sample_le (payload : Payload) (i j : nat) :
  (i <= j)%nat -> sample payload i <= sample payload j.
Proof.
  intros Hij. destruct (Nat.eq_dec i j) as [-> | Hne]; [lra|].
  left. apply sample_lt. lia.
Qed.

(** At most twenty steps fit in any cycle count. *)
Lemma samples_count (payload : Payload) (m : nat) :
  sample payload m <= totalCycles payload -> (m <= 20)%nat.
Proof.
  intros Hfits. pose proof (step_covers payload) as Hcover.
  destruct (le_lt_dec m 20) as [Hle | Hgt]; [assumption|].
  pose proof (sample_le payload 21 m Hgt). lra.
Qed.

Lemma trendOf_length (payload : Payload) (cf : number) (m : nat) :
  (S m <= List.length (trendOf payload cf m) <= S (S m))%nat.
Proof.
  unfold trendOf. rewrite length_app, length_map, length_seq.
  destruct (Rlt_dec _ _); cbn [List.length]; lia.
Qed.

(** X7.  For every payload, valid or not, [buildTrend] returns (for any
    fuel of 22 or more) a sequence of at least 1 and at most 22 points;
    the read of the last point never fails. *)
Theorem X7_trend_length (payload : Payload) (fuel : nat) :
  (22 <= fuel)%nat ->
  exists points,
    buildTrend fuel payload = Some (Returned points)
    /\ (1 <= List.length points <= 22)%nat.
Proof.
  intros Hfuel.
  destruct (buildTrend_returns payload fuel Hfuel) as (m & [Hfits _] & Hrun).
  eexists. split; [exact Hrun|].
  pose proof (samples_count payload m Hfits).
  pose proof (trendOf_length payload (calculateCalibrationFactor payload) m).
  lia.
Qed.

Lemma X7_trend_length_witness :
  exists points,
    buildTrend 22 emptyPayload = Some (Returned points)
    /\ (1 <= List.length points <= 22)%nat.
Proof. apply (X7_trend_length emptyPayload 22). lia. Defined.

(** A point simulated without a measurement is within the ranges. *)
Lemma mkPoint_inRange (payload sim : Payload) (n f cycle : R) :
  nominalCapacity payload = Some n -> 0 < n -> 0 <= f ->
  currentCapacity sim = None ->
  0 <= cycle <= totalCycles payload ->
  inRange n (totalCycles payload) (mkPoint payload sim (Num f) cycle).
Proof.
  intros Hn Hpos Hf Hsim Hcycle. split; [exact Hcycle|].
  unfold mkPoint. rewrite Hn. cbn [number_map dflt Point.healthPct Point.capacity].
  pose proof (health_range sim f Hf) as Hh.
  set (h := healthPct (computeDegradation sim f)) in *. clearbody h.
  eexists _, _. split; [reflexivity|]. split; [|split; [reflexivity|]].
  - split; [apply toFixed2_nonneg; lra|].
    rewrite <- toFixed2_100. apply toFixed2_mono; lra.
  - assert (Hc : 0 <= h / 100 * n <= n) by nra.
    split; [apply toFixed2_nonneg; lra | apply toFixed2_mono; lra].
Qed.

(** X8.  For a valid profile every point of the returned sequence has its
    cycle between 0 and the cycle count, a health between 0 and 100 and a
    capacity between 0 and the nominal capacity rounded to two
    decimals. *)
Theorem X8_trend_points_in_range (payload : Payload) (n : R) (fuel : nat) :
  nominalCapacity payload = Some n -> 0 < n -> (22 <= fuel)%nat ->
  exists points,
    buildTrend fuel payload = Some (Returned points)
    /\ Forall (inRange n (totalCycles payload)) points.
Proof.
  intros Hn Hpos Hfuel.
  destruct (buildTrend_returns payload fuel Hfuel) as (m & [Hfits _] & Hrun).
  destruct (calibration_number payload n Hn) as (f & Hf & Hb & _).
  rewrite Hf in Hrun. eexists. split; [exact Hrun|].
  pose proof (totalCycles_nonneg payload) as Htc.
  unfold trendOf. apply Forall_app. split.
  - apply Forall_forall. intros x Hx.
    apply in_map_iff in Hx as (j & <- & Hj). apply in_seq in Hj.
    apply mkPoint_inRange; try assumption; try reflexivity; try lra.
    split; [apply sample_nonneg|].
    apply Rle_trans with (2 := Hfits). apply sample_le. lia.
  - destruct (Rlt_dec _ _); [|constructor].
    constructor; [|constructor].
    apply mkPoint_inRange; try assumption; try reflexivity; lra.
Qed.

Lemma X8_trend_points_in_range_witness :
  exists points,
    buildTrend 22 scenario = Some (Returned points)
    /\ Forall (inRange 100 (totalCycles scenario)) points.
Proof.
  apply (X8_trend_points_in_range scenario 100 22).
  - reflexivity.
  - lra.
  - lia.
Defined.

(** ** Edges of the sweep *)

(** X9.  For a valid profile whose [chargeCycles] is absent, zero or
    negative, the trend is the single point at cycle 0 with health 100 and
    the nominal capacity, whatever the calendar age. *)
Theorem X9_trend_without_cycles (payload : Payload) (n : R) (fuel : nat) :
  nominalCapacity payload = Some n -> 0 < n ->
  (chargeCycles payload = None
   \/ exists k, chargeCycles payload = Some k /\ k <= 0) ->
  (22 <= fuel)%nat ->
  buildTrend fuel payload
  = Some (Returned
      [{| Point.cycle := 0; Point.healthPct := Num 100;
          Point.capacity := Num (toFixed2 n) |}]).
Proof.
  intros Hn Hpos Hcycles Hfuel.
  assert (Htc : totalCycles payload = 0).
  { unfold totalCycles. destruct Hcycles as [-> | (k & -> & Hk)]; cbn; Rminmax. }
  destruct (buildTrend_returns payload fuel Hfuel) as (m & [Hfits _] & Hrun).
  destruct (calibration_number payload n Hn) as (f & Hf & _).
  rewrite Hf in Hrun. rewrite Hrun.
  assert (Hm : m = 0%nat).
  { destruct m as [| m]; [reflexivity|]. exfalso.
    pose proof (sample_lt payload 0 (S m) ltac:(lia)) as Hlt.
    rewrite sample_0 in Hlt. lra. }
  subst m. unfold trendOf. cbn [seq map]. rewrite sample_0, Htc.
  destruct (Rlt_dec 0 0); [lra|].
  rewrite loopPoint_0, Hn. cbn [dflt app].
  now replace (100 / 100 * n) with n by lra.
Qed.

Lemma X9_trend_without_cycles_witness :
  buildTrend 22 shelfBattery
  = Some (Returned
      [{| Point.cycle := 0; Point.healthPct := Num 100;
          Point.capacity := Num (toFixed2 100) |}]).
Proof.
  apply (X9_trend_without_cycles shelfBattery 100 22).
  - reflexivity.
  - lra.
  - left. reflexivity.
  - lia.
Defined.

Lemma trendLoop_withoutMeasurement (fuel : nat) (payload : Payload)
    (cf : number) (i : R) (points : list Point.t) :
  trendLoop fuel (withoutMeasurement payload) cf i points
  = trendLoop fuel payload cf i points.
Proof.
  revert i points. induction fuel as [| fuel IH]; intros i points.
  - reflexivity.
  - cbn [trendLoop].
    change (totalCycles (withoutMeasurement payload)) with (totalCycles payload).
    destruct (Rle_dec i (totalCycles payload)); [|reflexivity].
    apply IH.
Qed.

(** X10.  With fewer than 50 cycles the measurement has no effect on the
    trend: [buildTrend] returns what it returns on the payload without
    [currentCapacity]. *)
Theorem X10_trend_ignores_early_measurement (payload : Payload) (k : R)
    (fuel : nat) :
  chargeCycles payload = Some k -> k < 50 ->
  buildTrend fuel payload = buildTrend fuel (withoutMeasurement payload).
Proof.
  intros Hk Hk50. unfold buildTrend.
  assert (Hlt : js_lt (chargeCycles payload) 50 = true)
    by (apply js_lt_true; eauto).
  rewrite !calibration_noop by (right; exact Hlt).
  rewrite trendLoop_withoutMeasurement. reflexivity.
Qed.

Lemma X10_trend_ignores_early_measurement_witness :
  buildTrend 22 youngBattery = buildTrend 22 (withoutMeasurement youngBattery).
Proof.
  apply (X10_trend_ignores_early_measurement youngBattery 40 22).
  - reflexivity.
  - lra.
Defined.

(** ** The end of a calibrated trend *)

Lemma years_calendarAge (payload : Payload) :
  years payload = Rmax (calendarAge payload) 0.
Proof. unfold years, calendarAge. now destruct (calendarAgeYears payload). Qed.

(** A sample that lands on the cycle count is evaluated at the full
    calendar age, like the end point. *)
Lemma loopSim_at_end (payload : Payload) (f : R) :
  1 <= totalCycles payload ->
  totalFadePct (loopSim payload (totalCycles payload)) f
  = totalFadePct payload f.
Proof.
  intros Htc.
  assert (Hy : years (loopSim payload (totalCycles payload)) = years payload).
  { rewrite loopSim_years, years_calendarAge. f_equal.
    unfold or_else. destruct (Req_dec_T (totalCycles payload) 0); [lra|].
    replace (Rmax (totalCycles payload) 1) with (totalCycles payload) by Rminmax.
    field. lra. }
  unfold totalFadePct, cycleFadeFraction, calendarFadeFraction.
  rewrite Hy. cbn [loopSim chargeCycles avgTemperature dflt].
  replace (Rmax (totalCycles payload) 0)
    with (Rmax (dflt 0 (chargeCycles payload)) 0)
    by (unfold totalCycles; Rminmax).
  reflexivity.
Qed.

(** X11.  Under the conditions of an unclamped calibration (usable
    measurement, model fade [F] in [[0.1, 100]], measured fade in
    [[0.1 F, 3 F]]) the trend ends on the measurement: its last point is at
    the cycle count, its health is the clamped measured ratio rounded to
    two decimals, and its capacity is that health applied to the nominal
    capacity, rounded. *)
Theorem X11_trend_ends_on_measurement (payload : Payload) (n c k : R)
    (fuel : nat) :
  nominalCapacity payload = Some n -> 0 < n ->
  currentCapacity payload = Some c -> c <> 0 ->
  chargeCycles payload = Some k -> 50 <= k ->
  0.1 <= totalFadePct payload 1 <= 100 ->
  0.1 * totalFadePct payload 1 <= 100 - c / n * 100
    <= 3 * totalFadePct payload 1 ->
  (22 <= fuel)%nat ->
  exists front,
    buildTrend fuel payload
    = Some (Returned
        (front
         ++ [{| Point.cycle := k;
                Point.healthPct := Num (toFixed2 (measuredHealthPct c n));
                Point.capacity :=
                  Num (toFixed2 (measuredHealthPct c n / 100 * n)) |}])).
Proof.
  intros Hn Hpos Hc Hc0 Hk Hk50 HF HA Hfuel.
  destruct (calibration_unclamped payload n c k) as (f & Hf & _ & Hhealth);
    try assumption.
  destruct (buildTrend_returns payload fuel Hfuel) as (m & [Hfits _] & Hrun).
  rewrite Hf in Hrun. rewrite Hrun.
  destruct (trendOf_last payload (Num f) m Hfits)
    as (front & lastPoint & -> & _ & Hlast).
  assert (Htc : totalCycles payload = k).
  { unfold totalCycles. rewrite Hk. cbn. Rminmax. }
  exists front. do 3 f_equal.
  destruct Hlast as [-> | ->]; unfold endPoint, loopPoint, mkPoint;
    cbn [number_map]; rewrite Hn; cbn [dflt].
  - rewrite endSim_health, endSim_fade, Hhealth, Htc. reflexivity.
  - rewrite loopSim_health, loopSim_at_end, Hhealth, Htc by lra. reflexivity.
Qed.

Lemma X11_trend_ends_on_measurement_witness :
  exists front,
    buildTrend 22 scenario
    = Some (Returned
        (front
         ++ [{| Point.cycle := 550;
                Point.healthPct := Num (toFixed2 (measuredHealthPct 84 100));
                Point.capacity :=
                  Num (toFixed2 (measuredHealthPct 84 100 / 100 * 100)) |}])).
Proof.
  apply (X11_trend_ends_on_measurement scenario 100 84 550 22).
  - reflexivity.
  - lra.
  - reflexivity.
  - lra.
  - reflexivity.
  - lra.
  - pose proof scenario_fade_bounds. lra.
  - pose proof scenario_fade_bounds. lra.
  - lia.
Defined.

(** * Properties of the service *)

(** ** Status labels *)

Lemma measuredHealthPct_ge (c n t : R) :
  0 < t <= 100 -> (t <= measuredHealthPct c n <-> t <= c / n * 100).
Proof.
  intros Ht. unfold measuredHealthPct, Rmax, Rmin.
  destruct (Rle_dec 100 (c / n * 100));
    match goal with |- context [Rle_dec 0 ?x] => destruct (Rle_dec 0 x) end;
    split; lra.
Qed.

(** X12.  For a profile with a nonzero measurement the status label of
    the analysis is read off the measured ratio
    [currentCapacity / nominalCapacity * 100] alone: Excellent from 90,
    Good from 80, Fair from 70, Poor from 60, Critical below; and the
    description names the data as measured. *)
Theorem X12_status_of_measured_ratio (input : Payload) (n c : R) :
  nominalCapacity input = Some n -> 0 < n ->
  currentCapacity input = Some c -> c <> 0 ->
  (90 <= c / n * 100 <->
   Status.status (analysisStatus input) = "Excellent"%string)
  /\ (80 <= c / n * 100 < 90 <->
      Status.status (analysisStatus input) = "Good"%string)
  /\ (70 <= c / n * 100 < 80 <->
      Status.status (analysisStatus input) = "Fair"%string)
  /\ (60 <= c / n * 100 < 70 <->
      Status.status (analysisStatus input) = "Poor"%string)
  /\ (c / n * 100 < 60 <->
      Status.status (analysisStatus input) = "Critical"%string)
  /\ exists text,
       Status.description (analysisStatus input)
       = (text ++ "(measured)")%string.
Proof.
  intros Hn Hpos Hc Hc0. unfold analysisStatus.
  change (soh (computeDegradation input 1))
    with (healthPct (computeDegradation input 1)).
  rewrite (healthPct_measured input 1 c Hc Hc0), Hn. cbn [dflt].
  assert (Ht : truthy (currentCapacity input) = true)
    by (apply truthy_true; eauto).
  pose proof (measuredHealthPct_ge c n 90) as H90.
  pose proof (measuredHealthPct_ge c n 80) as H80.
  pose proof (measuredHealthPct_ge c n 70) as H70.
  pose proof (measuredHealthPct_ge c n 60) as H60.
  set (h := measuredHealthPct c n) in *. set (r := c / n * 100) in *.
  clearbody h r.
  specialize (H90 ltac:(lra)). specialize (H80 ltac:(lra)).
  specialize (H70 ltac:(lra)). specialize (H60 ltac:(lra)).
  unfold determineBatteryStatus. rewrite Ht.
  destruct (Rge_dec h 90); [|destruct (Rge_dec h 80);
    [|destruct (Rge_dec h 70); [|destruct (Rge_dec h 60)]]];
    cbn [Status.status Status.description];
    repeat match goal with
      | |- _ /\ _ => split
      | |- _ <-> _ => split; intros
      end;
    try discriminate; try reflexivity; try lra;
    first [ exists "Battery health is excellent "%string; reflexivity
          | exists "Battery health is good "%string; reflexivity
          | exists "Battery health is fair - monitor closely "%string; reflexivity
          | exists "Battery health is poor - consider replacement "%string;
            reflexivity
          | exists "Battery health is critical - replacement needed "%string;
            reflexivity ].
Qed.

Lemma X12_status_of_measured_ratio_witness :
  (90 <= 84 / 100 * 100 <->
   Status.status (analysisStatus scenario) = "Excellent"%string)
  /\ (80 <= 84 / 100 * 100 < 90 <->
      Status.status (analysisStatus scenario) = "Good"%string)
  /\ (70 <= 84 / 100 * 100 < 80 <->
      Status.status (analysisStatus scenario) = "Fair"%string)
  /\ (60 <= 84 / 100 * 100 < 70 <->
      Status.status (analysisStatus scenario) = "Poor"%string)
  /\ (84 / 100 * 100 < 60 <->
      Status.status (analysisStatus scenario) = "Critical"%string)
  /\ exists text,
       Status.description (analysisStatus scenario)
       = (text ++ "(measured)")%string.
Proof.
  apply (X12_status_of_measured_ratio scenario 100 84).
  - reflexivity.
  - lra.
  - reflexivity.
  - lra.
Defined.

(** X13.  The analysis labels a battery Poor or Critical exactly when its
    reported health is under the end-of-life threshold of 70, and then the
    remaining-life estimate is 0 months. *)
Theorem X13_end_of_life_labels (input : Payload) :
  ((Status.status (analysisStatus input) = "Poor"%string
    \/ Status.status (analysisStatus input) = "Critical"%string)
   <-> healthPct (computeDegradation input 1) < 70)
  /\ (healthPct (computeDegradation input 1) < 70 ->
      estimatedRUIMonths (computeDegradation input 1) = 0).
Proof.
  split.
  - unfold analysisStatus.
    change (soh (computeDegradation input 1))
      with (healthPct (computeDegradation input 1)).
    set (h := healthPct (computeDegradation input 1)). clearbody h.
    unfold determineBatteryStatus.
    destruct (Rge_dec h 90); [|destruct (Rge_dec h 80);
      [|destruct (Rge_dec h 70); [|destruct (Rge_dec h 60)]]];
      cbn [Status.status]; split;
      try (intros [H | H]; discriminate); try lra; auto.
  - intros Hlow.
    apply (proj1 (proj2 (remaining_life_facts input 1 ltac:(lra)))). lra.
Qed.

Lemma X13_end_of_life_labels_witness :
  estimatedRUIMonths (computeDegradation wornBattery 1) = 0.
Proof.
  apply (proj2 (X13_end_of_life_labels wornBattery)).
  rewrite (healthPct_measured wornBattery 1 50) by (reflexivity || lra).
  unfold measuredHealthPct. cbn [wornBattery nominalCapacity dflt].
  unfold Rmax, Rmin.
  destruct (Rle_dec 100 (50 / 100 * 100)); [lra|].
  destruct (Rle_dec 0 (50 / 100 * 100)); lra.
Defined.

(** ** Recommendations *)

Lemma js_gt_false (v : option R) (c : R) :
  js_gt v c = false <-> forall x, v = Some x -> x <= c.
Proof.
  unfold js_gt. destruct v as [x|].
  - destruct (Rgt_dec x c) as [Hx | Hx]; split.
    + discriminate.
    + intros H. specialize (H x eq_refl). lra.
    + intros _ y [= <-]. lra.
    + reflexivity.
  - split; [intros _ x [=] | reflexivity].
Qed.

Lemma js_gt_true (v : option R) (c : R) :
  js_gt v c = true <-> exists x, v = Some x /\ c < x.
Proof.
  unfold js_gt. destruct v as [x|].
  - destruct (Rgt_dec x c) as [Hx | Hx]; split.
    + intros _. exists x. split; [reflexivity | lra].
    + reflexivity.
    + discriminate.
    + intros (y & [= <-] & Hy). lra.
  - split; [discriminate | intros (x & [=] & _)].
Qed.

(** X14.  [generateRecommendations] never returns an empty list and never
    more than five entries.  The list is the single entry "operating
    within optimal parameters" exactly when no condition fires: the
    temperature is absent or at most 30, the depth of discharge absent or
    at most 90, the charge rate absent or at most 1.5, the state of health
    at least 75 and the cycle count absent or at most 1000; otherwise that
    entry is not in the list. *)
Theorem X14_recommendations (input : Payload) (result : FadeResult) :
  (1 <= List.length (generateRecommendations input result) <= 5)%nat
  /\ (generateRecommendations input result = [withinOptimal]
      <-> (forall t, avgTemperature input = Some t -> t <= 30)
          /\ (forall d, dodPct input = Some d -> d <= 90)
          /\ (forall r, cRate input = Some r -> r <= 1.5)
          /\ 75 <= soh result
          /\ (forall k, chargeCycles input = Some k -> k <= 1000))
  /\ (In withinOptimal (generateRecommendations input result)
      -> generateRecommendations input result = [withinOptimal]).
Proof.
  rewrite <- !js_gt_false.
  assert (H35 : js_gt (avgTemperature input) 30 = false ->
                js_gt (avgTemperature input) 35 = false).
  { rewrite !js_gt_false. intros H t Ht. specialize (H t Ht). lra. }
  unfold generateRecommendations, pushIf.
  destruct (js_gt (avgTemperature input) 35) eqn:E35;
    destruct (js_gt (avgTemperature input) 30) eqn:E30;
    destruct (js_gt (dodPct input) 90);
    destruct (js_gt (cRate input) 1.5);
    destruct (Rlt_dec (soh result) 75);
    destruct (js_gt (chargeCycles input) 1000);
    cbn [app List.length In];
    (split; [lia|]); (split; [split|]);
    try (intros [= ]); try discriminate;
    try (intros (Ha & Hb & Hc & Hd & He); try discriminate;
         try (specialize (H35 eq_refl); discriminate); lra);
    try (repeat split; try reflexivity; lra);
    try reflexivity;
    intros Hin;
    repeat (destruct Hin as [Hin | Hin]; [try discriminate|]);
    try contradiction; try reflexivity.
Qed.

(** ** Health summary *)

Lemma field_or_ge_dflt (v : option R) (d : R) :
  0 <= d -> dflt d v <= field_or v d.
Proof.
  intros Hd. unfold field_or, truthy.
  destruct v as [x|]; cbn [dflt]; [|lra].
  destruct (Req_dec_T x 0); lra.
Qed.

(** The summary's payload is at least as old as the input. *)
Lemma enhancedInput_years (input : Payload) :
  years input <= years (enhancedInput input).
Proof.
  unfold years. cbn [enhancedInput calendarAgeYears calendarAgeMonths].
  destruct (calendarAgeYears input); [lra|].
  apply Rle_max_compat_r. apply Rmult_le_compat_r; [lra|].
  unfold enhancedCalendarAgeMonths, estimatedCalendarAgeMonths.
  destruct (truthy (calendarAgeMonths input)) eqn:Ht; [lra|].
  apply truthy_false in Ht. destruct Ht as [-> | ->]; cbn [dflt];
    destruct (chargeCycles input); cbn [dflt]; Rminmax.
Qed.

(** X15.  For a battery with a nonzero measurement the health summary
    reports the health and the status label of the full analysis, and
    names its data as measured: the summary's defaults do not reach the
    measured ratio. *)
Theorem X15_summary_agrees_when_measured (input : Payload) (c : R) :
  currentCapacity input = Some c -> c <> 0 ->
  Summary.healthPercentage (getHealthSummary input)
  = healthPct (computeDegradation input 1)
  /\ Summary.status (getHealthSummary input)
     = Status.status (analysisStatus input)
  /\ Summary.dataSource (getHealthSummary input) = "measured"%string.
Proof.
  intros Hc Hc0.
  assert (Hh : healthPct (computeDegradation (enhancedInput input) 1)
               = healthPct (computeDegradation input 1)).
  { rewrite (healthPct_measured (enhancedInput input) 1 c Hc Hc0).
    now rewrite (healthPct_measured input 1 c Hc Hc0). }
  unfold getHealthSummary, analysisStatus.
  cbn [Summary.healthPercentage Summary.status Summary.dataSource].
  change (soh (computeDegradation (enhancedInput input) 1))
    with (healthPct (computeDegradation (enhancedInput input) 1)).
  change (soh (computeDegradation input 1))
    with (healthPct (computeDegradation input 1)).
  rewrite Hh, (proj2 (truthy_true _)) by eauto.
  repeat split.
Qed.

Lemma X15_summary_agrees_when_measured_witness :
  Summary.healthPercentage (getHealthSummary scenario)
  = healthPct (computeDegradation scenario 1)
  /\ Summary.status (getHealthSummary scenario)
     = Status.status (analysisStatus scenario)
  /\ Summary.dataSource (getHealthSummary scenario) = "measured"%string.
Proof.
  apply (X15_summary_agrees_when_measured scenario 84).
  - reflexivity.
  - lra.
Defined.

(** X16.  In the health summary a supplied temperature of exactly 0 is
    replaced by the default of 25: the health, the status, the remaining
    life and the confidence are those of the same battery at 25 degrees,
    and the replacement is reported among the assumptions. *)
Theorem X16_summary_reads_zero_temperature_as_default (input : Payload) :
  avgTemperature input = Some 0 ->
  Summary.healthPercentage (getHealthSummary input)
  = Summary.healthPercentage (getHealthSummary (withTemperature input 25))
  /\ Summary.status (getHealthSummary input)
     = Summary.status (getHealthSummary (withTemperature input 25))
  /\ Summary.estimatedMonthsRemaining (getHealthSummary input)
     = Summary.estimatedMonthsRemaining (getHealthSummary (withTemperature input 25))
  /\ Summary.confidence (getHealthSummary input)
     = Summary.confidence (getHealthSummary (withTemperature input 25))
  /\ Summary.defaultTemperature (Summary.assumptions (getHealthSummary input))
     = Some 25.
Proof.
  intros HT.
  assert (He : enhancedInput (withTemperature input 25) = enhancedInput input).
  { unfold enhancedInput, withTemperature. rewrite HT.
    cbn [chargeCycles avgTemperature nominalCapacity currentCapacity dodPct
           cRate calendarAgeMonths calendarAgeYears].
    f_equal. f_equal. unfold field_or, truthy. cbn [dflt].
    destruct (Req_dec_T 25 0), (Req_dec_T 0 0); lra. }
  unfold getHealthSummary. rewrite He.
  cbn [Summary.healthPercentage Summary.status Summary.estimatedMonthsRemaining
         Summary.confidence Summary.assumptions Summary.defaultTemperature
         withTemperature currentCapacity].
  rewrite HT. unfold truthy. destruct (Req_dec_T 0 0); [|lra].
  repeat split.
Qed.

Lemma X16_summary_reads_zero_temperature_as_default_witness :
  Summary.healthPercentage (getHealthSummary coldBattery)
  = Summary.healthPercentage (getHealthSummary (withTemperature coldBattery 25))
  /\ Summary.status (getHealthSummary coldBattery)
     = Summary.status (getHealthSummary (withTemperature coldBattery 25))
  /\ Summary.estimatedMonthsRemaining (getHealthSummary coldBattery)
     = Summary.estimatedMonthsRemaining
         (getHealthSummary (withTemperature coldBattery 25))
  /\ Summary.confidence (getHealthSummary coldBattery)
     = Summary.confidence (getHealthSummary (withTemperature coldBattery 25))
  /\ Summary.defaultTemperature (Summary.assumptions (getHealthSummary coldBattery))
     = Some 25.
Proof.
  apply (X16_summary_reads_zero_temperature_as_default coldBattery).
  reflexivity.
Defined.

(** X17.  For temperatures above absolute zero the health summary never
    reports a better health than [computeDegradation] on the same input:
    its defaults only add calendar age, temperature or depth of discharge,
    so its payload fades at least as much. *)
Theorem X17_summary_is_no_more_optimistic (input : Payload) (f : R) :
  0 <= f -> -273.15 < dflt 25 (avgTemperature input) ->
  totalFadePct input f <= totalFadePct (enhancedInput input) f
  /\ Summary.healthPercentage (getHealthSummary input)
     <= healthPct (computeDegradation input 1).
Proof.
  intros Hf HT.
  assert (Hfade : forall g, 0 <= g ->
            totalFadePct input g <= totalFadePct (enhancedInput input) g).
  { intros g Hg.
    assert (Hcycle : cycleFadeFraction input g
                     <= cycleFadeFraction (enhancedInput input) g).
    { apply cycleFadeFraction_mono; try assumption;
        cbn [enhancedInput chargeCycles dodPct cRate dflt]; try lra.
      apply field_or_ge_dflt. lra. }
    assert (Hcal : calendarFadeFraction input g
                   <= calendarFadeFraction (enhancedInput input) g).
    { apply calendarFadeFraction_mono; try assumption.
      - cbn [enhancedInput avgTemperature dflt]. apply field_or_ge_dflt. lra.
      - apply enhancedInput_years. }
    unfold totalFadePct. lra. }
  split; [now apply Hfade|].
  unfold getHealthSummary. cbn [Summary.healthPercentage].
  destruct (truthy (currentCapacity input)) eqn:Ht.
  - apply truthy_true in Ht as (c & Hc & Hc0).
    rewrite (healthPct_measured (enhancedInput input) 1 c Hc Hc0).
    rewrite (healthPct_measured input 1 c Hc Hc0). cbn. lra.
  - rewrite !healthPct_unmeasured by assumption.
    specialize (Hfade 1 ltac:(lra)).
    set (F := totalFadePct input 1) in *.
    set (G := totalFadePct (enhancedInput input) 1) in *.
    clearbody F G. Rminmax.
Qed.

Lemma X17_summary_is_no_more_optimistic_witness :
  totalFadePct coldBattery 1 <= totalFadePct (enhancedInput coldBattery) 1
  /\ Summary.healthPercentage (getHealthSummary coldBattery)
     <= healthPct (computeDegradation coldBattery 1).
Proof.
  apply (X17_summary_is_no_more_optimistic coldBattery 1).
  - lra.
  - cbn. lra.
Defined.

(** * Properties of the request boundary *)

(** ** Validation *)

Lemma within_true (lo hi x : R) : within lo hi x = true <-> lo <= x <= hi.
Proof.
  unfold within. destruct (Rle_dec lo x), (Rle_dec x hi); split;
    try discriminate; try reflexivity; lra.
Qed.

Lemma required_Some (lo hi : R) (v w : option R) :
  required lo hi v = Some w -> exists x, v = Some x /\ w = Some x /\ lo <= x <= hi.
Proof.
  unfold required. destruct v as [x|]; [|discriminate].
  destruct (within lo hi x) eqn:E; [|discriminate].
  intros [= <-]. apply within_true in E. eauto.
Qed.

Lemma optional_Some (lo hi : R) (v w : option R) :
  optional lo hi v = Some w -> w = v /\ forall x, v = Some x -> lo <= x <= hi.
Proof.
  unfold optional. destruct v as [x|].
  - destruct (within lo hi x) eqn:E; [|discriminate].
    intros [= <-]. apply within_true in E. split; [reflexivity|].
    now intros y [= <-].
  - intros [= <-]. split; [reflexivity | discriminate].
Qed.

Lemma defaulted_Some (lo hi d : R) (v w : option R) :
  lo <= d <= hi ->
  defaulted lo hi d v = Some w ->
  exists x, w = Some x /\ lo <= x <= hi /\ (v = Some x \/ v = None /\ x = d).
Proof.
  intros Hd. unfold defaulted. destruct v as [x|].
  - destruct (within lo hi x) eqn:E; [|discriminate].
    intros [= <-]. apply within_true in E. eauto.
  - intros [= <-]. exists d. auto.
Qed.

(** What a successful parse returns. *)
Lemma batteryAnalysisSchema_validated (body parsed : Body.t) :
  batteryAnalysisSchema body = Some parsed -> validated (Body.fields parsed).
Proof.
  unfold batteryAnalysisSchema.
  destruct (defaulted 0 10000 0 _) as [cc|] eqn:Ecc; [|discriminate].
  destruct (defaulted (-40) 80 25 _) as [t|] eqn:Et; [|discriminate].
  destruct (required 0.1 10000 _) as [n|] eqn:En; [|discriminate].
  destruct (optional 0 10000 _) as [c|] eqn:Ec; [|discriminate].
  destruct (defaulted 0.1 5 0.8 _) as [r|] eqn:Er; [|discriminate].
  destruct (defaulted 10 100 80 _) as [d|] eqn:Ed; [|discriminate].
  destruct (optional 0 360 _) as [m|] eqn:Em; [|discriminate].
  destruct (optional 0 30 _) as [y|] eqn:Ey; [|discriminate].
  destruct (unitField _) as [u|]; [|discriminate].
  intros [= <-]. unfold validated. cbn.
  apply defaulted_Some in Ecc as (k & -> & Hk & _); [|lra].
  apply defaulted_Some in Et as (t' & -> & Ht & _); [|lra].
  apply required_Some in En as (n' & _ & -> & Hn).
  apply optional_Some in Ec as (-> & Hc).
  apply defaulted_Some in Er as (r' & -> & Hr & _); [|lra].
  apply defaulted_Some in Ed as (d' & -> & Hd & _); [|lra].
  apply optional_Some in Em as (-> & Hm).
  apply optional_Some in Ey as (-> & Hy).
  repeat match goal with |- _ /\ _ => split end;
    first [ assumption | eexists; split; [reflexivity | assumption] ].
Qed.

Lemma analyze_returns (input : Payload) (n : R) (fuel : nat) :
  nominalCapacity input = Some n -> 0 < n -> (22 <= fuel)%nat ->
  exists analysis, analyzeBatteryHealth fuel input = Some (Returned analysis).
Proof.
  intros Hn Hpos Hfuel. unfold analyzeBatteryHealth. rewrite Hn.
  unfold truthy, js_le.
  destruct (Req_dec_T n 0); [lra|]. destruct (Rle_dec n 0); [lra|].
  cbn [negb orb evaluateFade].
  destruct (buildTrend_returns input fuel Hfuel) as (m & _ & ->).
  eexists. reflexivity.
Qed.

(** X18.  A body accepted by [batteryAnalysisSchema] comes back with every
    defaulted field present and every field within its range, and
    [analyzeBatteryHealth] returns on it (for any fuel of 22 or more): the
    service's own [nominalCapacity] check cannot fail after validation. *)
Theorem X18_validated_body_is_analysed (body parsed : Body.t) (fuel : nat) :
  batteryAnalysisSchema body = Some parsed -> (22 <= fuel)%nat ->
  validated (Body.fields parsed)
  /\ exists analysis,
       analyzeBatteryHealth fuel (Body.fields parsed) = Some (Returned analysis).
Proof.
  intros Hparse Hfuel.
  pose proof (batteryAnalysisSchema_validated body parsed Hparse) as Hv.
  split; [exact Hv|].
  destruct Hv as (_ & _ & (n & Hn & Hrange) & _).
  apply (analyze_returns _ n); [assumption | lra | assumption].
Qed.

Lemma minimalBody_parsed :
  batteryAnalysisSchema minimalBody
  = Some {| Body.fields :=
              {| chargeCycles := Some 0; avgTemperature := Some 25;
                 nominalCapacity := Some 100; currentCapacity := None;
                 dodPct := Some 80; cRate := Some 0.8;
                 calendarAgeMonths := None; calendarAgeYears := None |};
            Body.unit := Some "Ah"%string |}.
Proof.
  unfold batteryAnalysisSchema, minimalBody, required. cbn.
  rewrite (proj2 (within_true 0.1 10000 100)) by lra. reflexivity.
Qed.

Lemma X18_validated_body_is_analysed_witness :
  exists parsed,
    batteryAnalysisSchema minimalBody = Some parsed
    /\ validated (Body.fields parsed)
    /\ exists analysis,
         analyzeBatteryHealth 22 (Body.fields parsed) = Some (Returned analysis).
Proof.
  eexists. split; [exact minimalBody_parsed|].
  apply (X18_validated_body_is_analysed minimalBody _ 22).
  - exact minimalBody_parsed.
  - lia.
Defined.

Lemma unitField_idempotent (v w : option string) :
  unitField v = Some w -> unitField w = Some w.
Proof.
  unfold unitField. destruct v as [u|].
  - destruct (_ || _)%bool eqn:E; [|discriminate]. intros [= <-]. now rewrite E.
  - intros [= <-]. reflexivity.
Qed.

Lemma within_field (lo hi x : R) : lo <= x <= hi -> within lo hi x = true.
Proof. apply within_true. Qed.

(** X19.  Validation is idempotent: a body returned by
    [batteryAnalysisSchema] is accepted again and comes back unchanged. *)
Theorem X19_validation_idempotent (body parsed : Body.t) :
  batteryAnalysisSchema body = Some parsed ->
  batteryAnalysisSchema parsed = Some parsed.
Proof.
  intros Hparse.
  pose proof (batteryAnalysisSchema_validated body parsed Hparse)
    as ((k & Hk & Hkr) & (t & Ht & Htr) & (n & Hn & Hnr) & Hc
        & (r & Hr & Hrr) & (d & Hd & Hdr) & Hm & Hy).
  assert (Hu : unitField (Body.unit parsed) = Some (Body.unit parsed)).
  { revert Hparse. unfold batteryAnalysisSchema.
    destruct (defaulted 0 10000 0 _); [|discriminate].
    destruct (defaulted (-40) 80 25 _); [|discriminate].
    destruct (required 0.1 10000 _); [|discriminate].
    destruct (optional 0 10000 _); [|discriminate].
    destruct (defaulted 0.1 5 0.8 _); [|discriminate].
    destruct (defaulted 10 100 80 _); [|discriminate].
    destruct (optional 0 360 _); [|discriminate].
    destruct (optional 0 30 _); [|discriminate].
    destruct (unitField (Body.unit body)) eqn:E; [|discriminate].
    intros [= <-]. cbn. now apply unitField_idempotent in E. }
  destruct parsed as [input u]. cbn [Body.fields Body.unit] in *.
  destruct input as [cc T nc c dod cr m y].
  cbn [chargeCycles avgTemperature nominalCapacity currentCapacity dodPct
         cRate calendarAgeMonths calendarAgeYears] in *.
  subst cc T nc cr dod.
  unfold batteryAnalysisSchema.
  cbn [Body.fields Body.unit chargeCycles avgTemperature nominalCapacity
         currentCapacity dodPct cRate calendarAgeMonths calendarAgeYears
         defaulted required].
  rewrite !within_field by assumption.
  assert (Hoc : optional 0 10000 c = Some c).
  { destruct c as [x|]; cbn; [|reflexivity].
    now rewrite within_field by (now apply Hc). }
  assert (Hom : optional 0 360 m = Some m).
  { destruct m as [x|]; cbn; [|reflexivity].
    now rewrite within_field by (now apply Hm). }
  assert (Hoy : optional 0 30 y = Some y).
  { destruct y as [x|]; cbn; [|reflexivity].
    now rewrite within_field by (now apply Hy). }
  rewrite Hoc, Hom, Hoy, Hu. reflexivity.
Qed.

Lemma X19_validation_idempotent_witness :
  exists parsed,
    batteryAnalysisSchema minimalBody = Some parsed
    /\ batteryAnalysisSchema parsed = Some parsed.
Proof.
  eexists. split; [exact minimalBody_parsed|].
  apply (X19_validation_idempotent minimalBody). exact minimalBody_parsed.
Defined.

(** ** Error responses *)

(** Whatever [analyzeBatteryHealth] throws went through its [catch]. *)
Lemma analyze_throws_rethrown (fuel : nat) (input : Payload) (e : jsError) :
  analyzeBatteryHealth fuel input = Some (Thrown e) ->
  exists cause, e = rethrow cause.
Proof.
  unfold analyzeBatteryHealth.
  destruct (negb _ || _)%bool.
  - intros [= <-].
    now exists (Error "nominalCapacity must be a positive number").
  - cbn [evaluateFade].
    destruct (buildTrend fuel input) as [[points | cause]|]; try discriminate.
    intros [= <-]. now exists cause.
Qed.

Lemma rethrown_is_analysis_error (development : bool) (cause : jsError)
    (stack : string) :
  errorHandler development (errorObject (rethrow cause) stack)
  = {| Response.status := 422;
       Response.error := "Analysis Error";
       Response.message :=
         match rethrow cause with Error message => message end;
       Response.stack := None |}.
Proof. destruct cause as [message]. reflexivity. Qed.

(** X20.  Every error thrown by [analyzeBatteryHealth] is answered by
    [errorHandler] with status 422 and the label "Analysis Error", with the
    thrown message, which starts with "Battery analysis failed: ", and
    without a stack, in development mode or not. *)
Theorem X20_analysis_failure_is_422 (fuel : nat) (input : Payload)
    (e : jsError) (development : bool) (stack : string) :
  analyzeBatteryHealth fuel input = Some (Thrown e) ->
  exists detail,
    e = Error ("Battery analysis failed: " ++ detail)
    /\ errorHandler development (errorObject e stack)
       = {| Response.status := 422;
            Response.error := "Analysis Error";
            Response.message := ("Battery analysis failed: " ++ detail)%string;
            Response.stack := None |}.
Proof.
  intros Hthrown.
  apply analyze_throws_rethrown in Hthrown as (cause & ->).
  rewrite rethrown_is_analysis_error. destruct cause as [detail].
  exists detail. split; reflexivity.
Qed.

Lemma X20_analysis_failure_is_422_witness :
  exists detail,
    Error "Battery analysis failed: nominalCapacity must be a positive number"
    = Error ("Battery analysis failed: " ++ detail)
    /\ errorHandler false
         (errorObject
            (Error "Battery analysis failed: nominalCapacity must be a positive number")
            "")
       = {| Response.status := 422;
            Response.error := "Analysis Error";
            Response.message := ("Battery analysis failed: " ++ detail)%string;
            Response.stack := None |}.
Proof.
  apply (X20_analysis_failure_is_422 22 zeroNominal _ false "").
  unfold analyzeBatteryHealth, zeroNominal, truthy, js_le. cbn.
  destruct (Req_dec_T 0 0); [reflexivity|].
  destruct (Rle_dec 0 0); [reflexivity | lra].
Defined.

(** X21.  A response of [errorHandler] with status 500 never carries the
    message of the error: its label and message are the two fixed texts.
    The stack is exposed only in development mode. *)
Theorem X21_internal_errors_are_opaque (development : bool) (err : Err.t) :
  (Response.status (errorHandler development err) = 500%nat ->
   Response.error (errorHandler development err) = "Internal Server Error"%string
   /\ Response.message (errorHandler development err)
      = "An internal server error occurred"%string)
  /\ (Response.stack (errorHandler development err) <> None ->
      development = true).
Proof.
  unfold errorHandler.
  destruct (String.eqb (Err.name err) "ValidationError");
    [cbn [Response.status Response.stack]; split; [discriminate | congruence]|].
  destruct (String.eqb (Err.name err) "CastError");
    [cbn [Response.status Response.stack]; split; [discriminate | congruence]|].
  destruct (negb _ && _)%bool;
    [cbn [Response.status Response.stack]; split; [discriminate | congruence]|].
  destruct (match Err.status err with Some 429%nat => true | _ => false end);
    [cbn [Response.status Response.stack]; split; [discriminate | congruence]|].
  cbv zeta. cbn [Response.status Response.error Response.message Response.stack].
  split.
  - intros ->. split; reflexivity.
  - destruct development; [reflexivity | congruence].
Qed.

Lemma X21_internal_errors_are_opaque_witness :
  Response.error (errorHandler true (errorObject (Error "boom") "trace"))
  = "Internal Server Error"%string
  /\ Response.message (errorHandler true (errorObject (Error "boom") "trace"))
     = "An internal server error occurred"%string.
Proof.
  apply (proj1 (X21_internal_errors_are_opaque true
                  (errorObject (Error "boom") "trace"))).
  reflexivity.
Defined.

(** ** A measured capacity of 0 at the request boundary *)

(** The body [{nominalCapacity: 100, currentCapacity: 0}] passes
    [batteryAnalysisSchema] with its measurement kept, and the analysis of
    what comes back reports a health of 100 and the label Excellent. *)
Lemma deadBody_validated_is_excellent :
  exists parsed,
    batteryAnalysisSchema deadBody = Some parsed
    /\ currentCapacity (Body.fields parsed) = Some 0
    /\ healthPct (computeDegradation (Body.fields parsed) 1) = 100
    /\ Status.status (analysisStatus (Body.fields parsed)) = "Excellent"%string.
Proof.
  assert (Hparse :
    batteryAnalysisSchema deadBody
    = Some {| Body.fields :=
                {| chargeCycles := Some 0; avgTemperature := Some 25;
                   nominalCapacity := Some 100; currentCapacity := Some 0;
                   dodPct := Some 80; cRate := Some 0.8;
                   calendarAgeMonths := None; calendarAgeYears := None |};
              Body.unit := Some "Ah"%string |}).
  { unfold batteryAnalysisSchema, deadBody, deadBattery, required, optional.
    cbn.
    rewrite (proj2 (within_true 0.1 10000 100)) by lra.
    rewrite (proj2 (within_true 0 10000 0)) by lra. reflexivity. }
  eexists. split; [exact Hparse|]. cbn [Body.fields].
  split; [reflexivity|].
  match goal with |- healthPct (computeDegradation ?p 1) = 100 /\ _ =>
    assert (Hh : healthPct (computeDegradation p 1) = 100)
  end.
  { rewrite healthPct_unmeasured
      by (apply truthy_false; right; reflexivity).
    rewrite zero_stress_fade.
    - Rminmax.
    - cbn. Rminmax.
    - unfold years. cbn. replace (0 / 12) with 0 by lra. Rminmax. }
  split; [exact Hh|]. unfold analysisStatus.
  match goal with |- context [soh (computeDegradation ?p 1)] =>
    change (soh (computeDegradation p 1)) with (healthPct (computeDegradation p 1))
  end.
  rewrite Hh. unfold determineBatteryStatus.
  destruct (Rge_dec 100 90); [reflexivity | lra].
Qed.
